(** * sensor01: the serial line protocol of the heat-ai temperature sensor

    A shallow embedding of [src/sensor/sensor01_py/sensor01.py]: the
    [Sensor] class (its handlers [got_info], [got_data], [got_error], the
    line reader [read], the dispatcher [process]) and the body of the
    [while True] loop that forwards measurements to the database.

    Python objects are modelled as follows.
    - [str] is [string]; [bytes] is [list byte].
    - The attributes of [self] that the handlers touch form the record
      [Sensor]; [None] is [None].
    - A method is a computation in the monad [M]: it threads the [Sensor],
      appends to a trace of the calls to [debug], [data], [time.sleep] and
      [write_points], and either returns or raises.  Attribute
      assignments made before an exception is raised stay in place, as in
      Python.
    - What the outside world hands to one loop iteration (the outcome of
      [readline], the clock, the outcome of [write_points]) is the record
      [input].
    - The builtin [float] is a parameter of the development.
    - The configuration checks run at startup ([cfg_read], [cfg_validate],
      [cfg_check_missing_vals]) and the two logging functions are modelled
      over the sections and options of the [ConfigParser] and what
      reading each option gives, a string or an exception. *)

From Stdlib Require Import String Ascii List Bool Arith ZArith Lia.
From Stdlib.Strings Require Import Byte.
From Stdlib Require Import QArith.
Import ListNotations.
Local Open Scope string_scope.
Local Open Scope list_scope.
Local Open Scope nat_scope.

(** ** Strings and bytes *)

(** [s.split(sep)] for a one-character separator. *)
Fixpoint split (sep : ascii) (s : string) : list string :=
  match s with
  | EmptyString => [EmptyString]
  | String c r =>
      if Ascii.eqb c sep then EmptyString :: split sep r
      else match split sep r with
           | h :: t => String c h :: t
           | [] => [String c EmptyString]
           end
  end.

(** [c in s] for a character [c]. *)
Fixpoint contains (c : ascii) (s : string) : bool :=
  match s with
  | EmptyString => false
  | String x r => Ascii.eqb x c || contains c r
  end.

(** The slices [s[:n]] and [s[n:]]. *)
Fixpoint slice_to (n : nat) (s : string) : string :=
  match n, s with
  | S n', String c r => String c (slice_to n' r)
  | _, _ => EmptyString
  end.

Fixpoint slice_from (n : nat) (s : string) : string :=
  match n, s with
  | S n', String _ r => slice_from n' r
  | _, _ => s
  end.

(** The characters [str.strip()] removes, among the 128 ASCII ones:
    tab, line feed, vertical tab, form feed, carriage return, the four
    separators 0x1c-0x1f and the space. *)
Definition isspace (c : ascii) : bool :=
  let n := nat_of_ascii c in
  ((9 <=? n) && (n <=? 13)) || ((28 <=? n) && (n <=? 32)).

Fixpoint lstrip (s : string) : string :=
  match s with
  | EmptyString => EmptyString
  | String c r => if isspace c then lstrip r else s
  end.

Fixpoint rstrip (s : string) : string :=
  match s with
  | EmptyString => EmptyString
  | String c r =>
      match rstrip r with
      | EmptyString => if isspace c then EmptyString else String c EmptyString
      | r' => String c r'
      end
  end.

Definition strip (s : string) : string := rstrip (lstrip s).

(** Exceptions the modelled code can meet. [ExternalError] stands for
    whatever [Exception] the serial port or the database client raises,
    [InterpolationError] for what [cfg[section][option]] raises when the
    value of the option cannot be interpolated. *)
Inductive exn : Type :=
| ValueError_unpack (expected got : nat)
| ValueError_float (text : string)
| KeyError (key : string)
| UnicodeDecodeError (b : byte) (position : nat)
| ExternalError (description : string)
| InterpolationError (section option : string).

(** [data.decode('ascii')]: the first byte above 0x7f raises. *)
Fixpoint decode_from (position : nat) (data : list byte) : string + exn :=
  match data with
  | [] => inl EmptyString
  | b :: r =>
      if Byte.to_nat b <? 128 then
        match decode_from (S position) r with
        | inl s => inl (String (ascii_of_byte b) s)
        | inr e => inr e
        end
      else inr (UnicodeDecodeError b position)
  end.

Definition decode (data : list byte) : string + exn := decode_from 0 data.

Definition encode (s : string) : list byte := list_byte_of_string s.

(** ** A decimal reader

    One admissible behaviour of the builtin [float] on plain decimal
    text: an optional sign, digits, and an optional fraction, read as an
    exact rational.  It is used to run the model on concrete lines. *)
Definition digit_of (c : ascii) : option Z :=
  let n := nat_of_ascii c in
  if (48 <=? n) && (n <=? 57) then Some (Z.of_nat (n - 48)) else None.

Fixpoint digits (acc : Z) (count : nat) (s : string) : option (Z * nat * string) :=
  match s with
  | EmptyString => Some (acc, count, EmptyString)
  | String c r =>
      match digit_of c with
      | Some d => digits (10 * acc + d)%Z (S count) r
      | None => Some (acc, count, s)
      end
  end.

Definition unsigned_decimal (s : string) : option Q :=
  match digits 0%Z 0 s with
  | Some (whole, n, EmptyString) =>
      if n =? 0 then None else Some (inject_Z whole)
  | Some (whole, n, String "." r) =>
      match digits whole 0 r with
      | Some (mant, k, EmptyString) =>
          if (n + k =? 0) then None
          else Some (Qred (Qmake mant (Z.to_pos (10 ^ Z.of_nat k))))
      | _ => None
      end
  | _ => None
  end.

Definition decimal_float (s : string) : option Q :=
  match s with
  | String "-" r => option_map Qopp (unsigned_decimal r)
  | String "+" r => unsigned_decimal r
  | _ => unsigned_decimal s
  end.

(** ** The Sensor class *)

Section SensorModel.

(** The type of Python floats and the builtin [float] applied to a
    [str]: [None] when it raises [ValueError]. *)
Variable F : Type.
Variable float : string -> option F.

(** The attributes of a [Sensor] instance that the methods read or
    write. *)
Record Sensor : Type := mkSensor {
  id : option string;
  ver : option string;
  scale : option string;
  line : option string;
  temperature : option F;
  humidity : option F
}.

(** The three attributes that [got_info] sets. *)
Definition identity (s : Sensor) : option string * option string * option string :=
  (scale s, id s, ver s).

(** [Sensor.__init__]: every attribute starts as [None]. *)
Definition init : Sensor := mkSensor None None None None None None.

(** The record handed to [dbfd.write_points]. *)
Record point : Type := mkPoint {
  measurement : string;
  tags_location : string;
  time : string;
  fields_temperature : option F;
  fields_humidity : option F
}.

(** The arguments of each [debug(...)] call of the file, one constructor
    per call site. *)
Inductive debug_msg : Type :=
| GotInfoFailed (i : string) (ex : exn)
| TempSensorBoot (scale id version : string)
| GotDataFailed (d : string) (ex : exn)
| IdChanged (old : option string) (new : string)
| FloatError (d : string) (ex : exn)
| SensorError (id : option string) (e : string)
| ReadFailed (ex : exn)
| InvalidData (ex : exn) (line : string)
| InfluxError (ex : exn).

(** What a method does to the outside, in order. *)
Inductive event : Type :=
| Debug (m : debug_msg)
| Data (id temperature humidity : string)
| Sleep (seconds : nat)
| WritePoints (json : point).

Inductive res (A : Type) : Type :=
| Ret (a : A)
| Raise (ex : exn).
Arguments Ret {A} a.
Arguments Raise {A} ex.

Definition M (A : Type) : Type := Sensor -> res A * Sensor * list event.

Definition ret {A} (a : A) : M A := fun s => (Ret a, s, []).

Definition raise {A} (ex : exn) : M A := fun s => (Raise ex, s, []).

Definition bind {A B} (m : M A) (k : A -> M B) : M B :=
  fun s =>
    match m s with
    | (Ret a, s1, t1) =>
        match k a s1 with
        | (r, s2, t2) => (r, s2, t1 ++ t2)
        end
    | (Raise ex, s1, t1) => (Raise ex, s1, t1)
    end.

(** [try: m  except Exception as ex: ...]: the exception becomes a
    value; the state and the trace reached when it was raised are kept. *)
Definition attempt {A} (m : M A) : M (A + exn) :=
  fun s =>
    match m s with
    | (Ret a, s1, t1) => (Ret (inl a), s1, t1)
    | (Raise ex, s1, t1) => (Ret (inr ex), s1, t1)
    end.

Definition get : M Sensor := fun s => (Ret s, s, []).

Definition modify (f : Sensor -> Sensor) : M unit := fun s => (Ret tt, f s, []).

Definition emit (e : event) : M unit := fun s => (Ret tt, s, [e]).

Notation "x <- c ;; k" := (bind c (fun x => k))
  (at level 100, c at next level, right associativity).
Notation "c ;;; k" := (bind c (fun _ => k))
  (at level 100, right associativity).

Definition debug (m : debug_msg) : M unit := emit (Debug m).
Definition data (i t h : string) : M unit := emit (Data i t h).
Definition sleep (n : nat) : M unit := emit (Sleep n).

Definition set_id (v : option string) : M unit :=
  modify (fun s => mkSensor v (ver s) (scale s) (line s) (temperature s) (humidity s)).
Definition set_ver (v : option string) : M unit :=
  modify (fun s => mkSensor (id s) v (scale s) (line s) (temperature s) (humidity s)).
Definition set_scale (v : option string) : M unit :=
  modify (fun s => mkSensor (id s) (ver s) v (line s) (temperature s) (humidity s)).
Definition set_line (v : option string) : M unit :=
  modify (fun s => mkSensor (id s) (ver s) (scale s) v (temperature s) (humidity s)).
Definition set_temperature (v : option F) : M unit :=
  modify (fun s => mkSensor (id s) (ver s) (scale s) (line s) v (humidity s)).
Definition set_humidity (v : option F) : M unit :=
  modify (fun s => mkSensor (id s) (ver s) (scale s) (line s) (temperature s) v).

(** [float(x)] as a computation. *)
Definition to_float (x : string) : M F :=
  match float x with
  | Some v => ret v
  | None => raise (ValueError_float x)
  end.

(** [[a, b, c, d] = l] and [[a, b, c] = l]. *)
Definition unpack4 (l : list string) : M (string * string * string * string) :=
  match l with
  | [a; b; c; d] => ret (a, b, c, d)
  | _ => raise (ValueError_unpack 4 (length l))
  end.

Definition unpack3 (l : list string) : M (string * string * string) :=
  match l with
  | [a; b; c] => ret (a, b, c)
  | _ => raise (ValueError_unpack 3 (length l))
  end.

(** [self.id != id], with [self.id] possibly [None]. *)
Definition differs (stored : option string) (i : string) : bool :=
  match stored with
  | Some x => negb (String.eqb x i)
  | None => true
  end.

Definition got_info (i : string) : M bool :=
  r <- attempt (unpack4 (split ":" i)) ;;
  match r with
  | inr ex =>
      debug (GotInfoFailed i ex) ;;;
      sleep 1 ;;;
      ret false
  | inl (_, scale_, id_, version) =>
      set_scale (Some scale_) ;;;
      set_id (Some id_) ;;;
      set_ver (Some version) ;;;
      debug (TempSensorBoot scale_ id_ version) ;;;
      ret false
  end.

Definition got_data (d : string) : M bool :=
  r <- attempt (unpack3 (split ":" d)) ;;
  match r with
  | inr ex =>
      debug (GotDataFailed d ex) ;;;
      sleep 1 ;;;
      ret false
  | inl (id_, temperature_, humidity_) =>
      self <- get ;;
      (if differs (id self) id_
       then debug (IdChanged (id self) id_)
       else ret tt) ;;;
      r2 <- attempt (t <- to_float temperature_ ;;
                     set_temperature (Some t) ;;;
                     h <- to_float humidity_ ;;
                     set_humidity (Some h)) ;;
      match r2 with
      | inr ex =>
          debug (FloatError d ex) ;;;
          sleep 1 ;;;
          ret false
      | inl _ =>
          data id_ temperature_ humidity_ ;;;
          ret true
      end
  end.

Definition got_error (e : string) : M bool :=
  self <- get ;;
  debug (SensorError (id self) e) ;;;
  ret false.

(** [self.dispatch]: the dictionary from message type to handler. *)
Definition dispatch (m_type : string) : option (string -> M bool) :=
  if String.eqb m_type "I:" then Some got_info
  else if String.eqb m_type "D:" then Some got_data
  else if String.eqb m_type "E:" then Some got_error
  else None.

(** [self.dispatch[m_type]]: a missing key raises [KeyError]. *)
Definition dispatch_item (m_type : string) : M (string -> M bool) :=
  match dispatch m_type with
  | Some handler => ret handler
  | None => raise (KeyError m_type)
  end.

(** The outcome of [self.fd.readline()]. *)
Inductive readline_result : Type :=
| Line (data_rd : list byte)
| ReadError (ex : exn).

Definition read (rd : readline_result) : M unit :=
  set_line None ;;;
  match rd with
  | ReadError ex =>
      debug (ReadFailed ex) ;;;
      sleep 1 ;;;
      ret tt
  | Line data_rd =>
      match decode data_rd with
      | inr ex => raise ex
      | inl line_ => set_line (Some (strip line_))
      end
  end.

Definition process : M bool :=
  self <- get ;;
  match line self with
  | None => ret false
  | Some l =>
      let m_type := slice_to 2 l in
      let message := slice_from 2 l in
      r <- attempt (handler <- dispatch_item m_type ;; handler message) ;;
      match r with
      | inl b => ret b
      | inr ex =>
          debug (InvalidData ex l) ;;;
          sleep 1 ;;;
          ret false
      end
  end.

(** ** The main loop *)

(** The configuration values the loop reads. *)
Record config : Type := mkConfig {
  influxdb_table : string;
  sensor_location : string
}.

(** What the world supplies to one iteration: the outcome of
    [readline], the value of [time.ctime()], and the exception
    [write_points] raises if it is called ([None]: it returns). *)
Record input : Type := mkInput {
  readline : readline_result;
  ctime : string;
  write_error : option exn
}.

Definition write_points (json : point) (outcome : option exn) : M unit :=
  emit (WritePoints json) ;;;
  match outcome with
  | None => ret tt
  | Some ex => raise ex
  end.

(** The body of [while True]. *)
Definition iteration (cfg : config) (inp : input) : M unit :=
  read (readline inp) ;;;
  let datetime := ctime inp in
  ok <- process ;;
  if ok then
    self <- get ;;
    let json := mkPoint (influxdb_table cfg) (sensor_location cfg) datetime
                        (temperature self) (humidity self) in
    r <- attempt (write_points json (write_error inp)) ;;
    match r with
    | inl _ => ret tt
    | inr ex =>
        debug (InfluxError ex) ;;;
        sleep 1 ;;;
        ret tt
    end
  else ret tt.

(** The loop run on a finite prefix of what the world supplies. An
    exception that leaves an iteration ends the loop. *)
Fixpoint main_loop (cfg : config) (inputs : list input) : M unit :=
  match inputs with
  | [] => ret tt
  | inp :: rest => iteration cfg inp ;;; main_loop cfg rest
  end.

End SensorModel.

Arguments Ret {A} a.
Arguments Raise {A} ex.
Arguments mkSensor {F} id ver scale line temperature humidity.
Arguments id {F} s.
Arguments ver {F} s.
Arguments scale {F} s.
Arguments line {F} s.
Arguments temperature {F} s.
Arguments humidity {F} s.
Arguments identity {F} s.
Arguments init {F}.
Arguments mkPoint {F} measurement tags_location time fields_temperature fields_humidity.
Arguments Debug {F} m.
Arguments Data {F} id temperature humidity.
Arguments Sleep {F} seconds.
Arguments WritePoints {F} json.
Arguments ret {F A} a s.
Arguments raise {F A} ex s.
Arguments bind {F A B} m k s.
Arguments attempt {F A} m s.
Arguments get {F} s.
Arguments modify {F} f s.
Arguments emit {F} e s.
Arguments got_info {F} i s.
Arguments got_data {F} float d s.
Arguments got_error {F} e s.
Arguments dispatch {F} float m_type.
Arguments read {F} rd s.
Arguments process {F} float s.
Arguments write_points {F} json outcome s.
Arguments iteration {F} float cfg inp s.
Arguments main_loop {F} float cfg inputs s.

(** The state a computation ends in, its result and its trace. *)
Definition result_of {F A} (out : res A * Sensor F * list (event F)) : res A :=
  fst (fst out).
Definition state_of {F A} (out : res A * Sensor F * list (event F)) : Sensor F :=
  snd (fst out).
Definition trace_of {F A} (out : res A * Sensor F * list (event F)) : list (event F) :=
  snd out.

(** A trace hands nothing upstream: it has no [data] record and no
    [write_points] call. *)
Definition is_reading {F} (e : event F) : bool :=
  match e with
  | Data _ _ _ | WritePoints _ => true
  | _ => false
  end.

Definition no_reading {F} (tr : list (event F)) : bool :=
  forallb (fun e => negb (is_reading e)) tr.

(** The [debug] call that [got_data] makes when the ids differ. *)
Definition id_changed_log {F} (s : Sensor F) (i : string) : list (event F) :=
  if differs (id s) i then [Debug (IdChanged (id s) i)] else [].

(** ** Concrete runs

    A sensor that has announced itself as id 7 and has a measurement
    stored, and a configuration, with [decimal_float] for [float]. *)
Definition booted : Sensor Q :=
  mkSensor (Some "7") (Some "2.1") (Some "C") None (Some 20%Q) (Some 50%Q).

Definition with_line (l : string) (s : Sensor Q) : Sensor Q :=
  mkSensor (id s) (ver s) (scale s) (Some l) (temperature s) (humidity s).

Definition house : config := mkConfig "climate" "attic".

(** The bytes [readline] returns for a line of text. *)
Definition wire (l : string) : readline_result := Line (encode l ++ [x0a]).

(** ** Measures on payloads, traces and inputs *)

(** The number of occurrences of the character [c] in [s]. *)
Fixpoint occurrences (c : ascii) (s : string) : nat :=
  match s with
  | EmptyString => 0
  | String x r => (if Ascii.eqb x c then 1 else 0) + occurrences c r
  end.

(** The number of [write_points] calls in a trace. *)
Fixpoint writes {F} (tr : list (event F)) : nat :=
  match tr with
  | [] => 0
  | WritePoints _ :: r => S (writes r)
  | _ :: r => writes r
  end.

(** The seconds spent in [time.sleep] in a trace. *)
Fixpoint slept {F} (tr : list (event F)) : nat :=
  match tr with
  | [] => 0
  | Sleep n :: r => n + slept r
  | _ :: r => slept r
  end.

(** The points handed to [write_points] in a trace. *)
Fixpoint written {F} (tr : list (event F)) : list (point F) :=
  match tr with
  | [] => []
  | WritePoints p :: r => p :: written r
  | _ :: r => written r
  end.

(** Every byte is below 0x80. *)
Definition is_ascii (data : list byte) : bool :=
  forallb (fun b => Byte.to_nat b <? 128) data.

(** An input whose bytes, if [readline] returned any, decode. *)
Definition readable (inp : input) : Prop :=
  match readline inp with
  | Line data_rd => is_ascii data_rd = true
  | ReadError _ => True
  end.

(** Every character is below 0x80. *)
Fixpoint is_text (s : string) : bool :=
  match s with
  | EmptyString => true
  | String c r => (nat_of_ascii c <? 128) && is_text r
  end.

(** Every character is one [strip] removes. *)
Fixpoint all_space (s : string) : bool :=
  match s with
  | EmptyString => true
  | String c r => isspace c && all_space r
  end.

(** ** Configuration and logging

    [cfg], the [ConfigParser], is modelled by what the code sees of it
    through [for label in cfg], [for val in cfg[label]] and
    [cfg[label][val]]: the sections in order, each with its options, and
    for each option what [cfg[label][val]] gives, the interpolated string
    or the exception the interpolation raises (as it does on a value
    such as [100%secret]).  [exit(code)] after [print(message)] is
    [Exit]; an exception nothing catches is [Raised]. *)
Definition settings : Type := list (string * list (string * (string + exn))).

Inductive startup : Type :=
| Proceed
| Exit (code : nat) (message : string)
| Raised (ex : exn).

(** [errno.ENOENT] and [errno.EINVAL]. *)
Definition ENOENT : nat := 2.
Definition EINVAL : nat := 22.

Definition name : string := "sensor01".
Definition cfg_name : string := name ++ ".cfg".

Definition cfg_must_have : list (string * string) :=
  [("influxdb", "ip");
   ("influxdb", "port");
   ("influxdb", "user");
   ("influxdb", "password");
   ("influxdb", "dbname");
   ("influxdb", "table");
   ("serial", "port_path");
   ("serial", "port_speed");
   ("sensor", "location");
   ("sensor", "fork");
   ("sensor", "log");
   ("sensor", "log_data")].

(** [cfg_read], given the list [cfg.read(cfg_name)] returned. *)
Definition cfg_read (files_read : list string) : startup :=
  if list_eq_dec string_dec files_read [cfg_name] then Proceed
  else Exit ENOENT ("error: no valid config in " ++ cfg_name).

(** The inner loop of [cfg_validate] over the options of one section. *)
Fixpoint validate_section (label : string) (options : list (string * (string + exn)))
  : startup :=
  match options with
  | [] => Proceed
  | (val, inr ex) :: _ => Raised ex
  | (val, inl value) :: rest =>
      if String.eqb value "" then Exit EINVAL (label ++ "->" ++ val ++ " can't be empty")
      else validate_section label rest
  end.

Fixpoint cfg_validate (cfg : settings) : startup :=
  match cfg with
  | [] => Proceed
  | (label, options) :: rest =>
      match validate_section label options with
      | Proceed => cfg_validate rest
      | stop => stop
      end
  end.

(** The two inner loops of [cfg_check_missing_vals]: [true] when some
    section [label] has an option [val] equal to the pair looked for,
    which is when [drop_out] ends up [False]. *)
Definition has_option (cfg : settings) (mh : string * string) : bool :=
  existsb (fun section =>
    existsb (fun option => String.eqb (fst section) (fst mh) &&
                           String.eqb (fst option) (snd mh))
            (snd section))
    cfg.

Fixpoint check_missing (must_have : list (string * string)) (cfg : settings) : startup :=
  match must_have with
  | [] => Proceed
  | mh :: rest =>
      if has_option cfg mh then check_missing rest cfg
      else Exit EINVAL ("error: missing config " ++ fst mh ++ "->" ++ snd mh)
  end.

Definition cfg_check_missing_vals (cfg : settings) : startup :=
  check_missing cfg_must_have cfg.

(** The three calls the program makes before anything else, in order;
    the first [exit] ends it. *)
Definition startup_checks (files_read : list string) (cfg : settings) : startup :=
  match cfg_read files_read with
  | Proceed =>
      match cfg_validate cfg with
      | Proceed => cfg_check_missing_vals cfg
      | stop => stop
      end
  | stop => stop
  end.

(** [cfg[label][val]]: a missing section or option raises [KeyError],
    and the interpolation of the value may raise. *)
Fixpoint lookup {A} (key : string) (l : list (string * A)) : option A :=
  match l with
  | [] => None
  | (k, v) :: rest => if String.eqb k key then Some v else lookup key rest
  end.

Definition cfg_item (cfg : settings) (label val : string) : string + exn :=
  match lookup label cfg with
  | None => inr (KeyError label)
  | Some options =>
      match lookup val options with
      | None => inr (KeyError val)
      | Some (inl value) => inl value
      | Some (inr ex) => inr ex
      end
  end.

(** What a logging call does: print on the console, append a line to
    the log file, nothing, or raise. *)
Inductive logged : Type :=
| Printed (text : string)
| Appended (path text : string)
| Nothing
| Failed (ex : exn).

Module Log.

(** The line both functions format: ["{}: {}".format(time.ctime(), msg)]. *)
Definition entry (now msg : string) : string := now ++ ": " ++ msg.

Definition debug (cfg : settings) (now msg : string) : logged :=
  match cfg_item cfg "sensor" "fork" with
  | inr ex => Failed ex
  | inl fork =>
      if String.eqb fork "yes" then
        match cfg_item cfg "sensor" "log" with
        | inr ex => Failed ex
        | inl path => Appended path (entry now msg)
        end
      else Printed (entry now msg)
  end.

Definition data (cfg : settings) (now msg : string) : logged :=
  match cfg_item cfg "sensor" "fork" with
  | inr ex => Failed ex
  | inl fork =>
      if String.eqb fork "yes" then
        match cfg_item cfg "sensor" "log_data" with
        | inr ex => Failed ex
        | inl log_data =>
            if String.eqb log_data "no" then Nothing
            else
              match cfg_item cfg "sensor" "log" with
              | inr ex => Failed ex
              | inl path => Appended path (entry now msg)
              end
        end
      else Printed (entry now msg)
  end.

End Log.

(** A configuration file with every required setting. *)
Definition sample_cfg : settings :=
  [("DEFAULT", []);
   ("influxdb", [("ip", inl "10.0.0.2"); ("port", inl "8086"); ("user", inl "heat");
                 ("password", inl "secret"); ("dbname", inl "house");
                 ("table", inl "climate")]);
   ("serial", [("port_path", inl "/dev/ttyUSB0"); ("port_speed", inl "9600")]);
   ("sensor", [("location", inl "attic"); ("fork", inl "yes");
               ("log", inl "/var/log/sensor01.log"); ("log_data", inl "no")])].


(** ** Facts about the string operations *)

Lemma split_not_nil sep s : split sep s <> [].
Proof.
  destruct s as [|c r]; simpl; [discriminate|].
  destruct (Ascii.eqb c sep); [discriminate|].
  destruct (split sep r); discriminate.
Qed.

Lemma split_no_sep sep s : contains sep s = false -> split sep s = [s].
Proof.
  induction s as [|c r IH]; simpl; intros H; [reflexivity|].
  apply orb_false_elim in H as [Hc Hr].
  rewrite Hc, (IH Hr). reflexivity.
Qed.

Lemma split_app sep a b :
  contains sep a = false ->
  split sep (a ++ String sep b) = a :: split sep b.
Proof.
  induction a as [|c r IH]; simpl; intros H.
  - rewrite Ascii.eqb_refl. reflexivity.
  - apply orb_false_elim in H as [Hc Hr].
    rewrite Hc, (IH Hr). reflexivity.
Qed.

Lemma split_three i t h :
  contains ":" i = false -> contains ":" t = false -> contains ":" h = false ->
  split ":" (i ++ ":" ++ t ++ ":" ++ h) = [i; t; h].
Proof.
  intros Hi Ht Hh. simpl.
  rewrite (split_app _ _ _ Hi), (split_app _ _ _ Ht), (split_no_sep _ _ Hh).
  reflexivity.
Qed.

Lemma slice_to_short l : String.length l < 2 -> slice_to 2 l = l.
Proof.
  destruct l as [|a [|b r]]; simpl; intros H; try reflexivity; lia.
Qed.

Lemma decode_from_ascii n data :
  forallb (fun b => Byte.to_nat b <? 128) data = true ->
  exists s, decode_from n data = inl s.
Proof.
  revert n. induction data as [|b r IH]; simpl; intros n H.
  - eexists; reflexivity.
  - apply andb_prop in H as [Hb Hr]. rewrite Hb.
    destruct (IH (S n) Hr) as [s ->]. eexists; reflexivity.
Qed.

(** ** Facts about the handlers *)

Ltac unfold_monad :=
  unfold dispatch_item, to_float, unpack3, unpack4,
    set_id, set_ver, set_scale, set_line, set_temperature, set_humidity,
    debug, data, sleep, bind, attempt, get, modify, emit, ret, raise in *.

Ltac run := unfold_monad; simpl.

(** As [run], without unfolding the string operations. *)
Ltac step := cbv beta iota zeta.

Section SensorFacts.

Context {F : Type} (float : string -> option F).

Implicit Types (s : Sensor F) (d i t h l : string).

#[local] Arguments dispatch : simpl never.

(** A payload with the wrong number of fields: logged, one second of
    sleep, nothing else. *)
Lemma got_data_bad_count d s :
  (forall a b c, split ":" d <> [a; b; c]) ->
  got_data float d s =
    (Ret false, s,
     [Debug (GotDataFailed d (ValueError_unpack 3 (List.length (split ":" d))));
      Sleep 1]).
Proof.
  intros H. unfold got_data. run.
  destruct (split ":" d) as [|a [|b [|c [|e r]]]] eqn:E; try reflexivity.
  exfalso. exact (H a b c eq_refl).
Qed.

Lemma got_data_ok d i t h tv hv s :
  split ":" d = [i; t; h] -> float t = Some tv -> float h = Some hv ->
  got_data float d s =
    (Ret true,
     mkSensor (id s) (ver s) (scale s) (line s) (Some tv) (Some hv),
     id_changed_log s i ++ [Data i t h]).
Proof.
  intros E Ht Hh. unfold got_data, id_changed_log. run. rewrite E. simpl.
  destruct (differs (id s) i); simpl; rewrite Ht; simpl; rewrite Hh; reflexivity.
Qed.

Lemma got_data_bad_temperature d i t h s :
  split ":" d = [i; t; h] -> float t = None ->
  got_data float d s =
    (Ret false, s,
     id_changed_log s i ++ [Debug (FloatError d (ValueError_float t)); Sleep 1]).
Proof.
  intros E Ht. unfold got_data, id_changed_log. run. rewrite E. simpl.
  destruct (differs (id s) i); simpl; rewrite Ht; reflexivity.
Qed.

Lemma got_data_bad_humidity d i t h tv s :
  split ":" d = [i; t; h] -> float t = Some tv -> float h = None ->
  got_data float d s =
    (Ret false,
     mkSensor (id s) (ver s) (scale s) (line s) (Some tv) (humidity s),
     id_changed_log s i ++ [Debug (FloatError d (ValueError_float h)); Sleep 1]).
Proof.
  intros E Ht Hh. unfold got_data, id_changed_log. run. rewrite E. simpl.
  destruct (differs (id s) i); simpl; rewrite Ht; simpl; rewrite Hh; reflexivity.
Qed.

(** The first [try] of [got_data] decides between the field-count
    failure and the three float outcomes. *)
Lemma got_data_cases d s :
  (forall a b c, split ":" d <> [a; b; c]) \/
  exists i t h, split ":" d = [i; t; h] /\
    (float t = None \/
     (exists tv, float t = Some tv /\ float h = None) \/
     (exists tv hv, float t = Some tv /\ float h = Some hv)).
Proof.
  destruct (split ":" d) as [|a [|b [|c [|e r]]]] eqn:E;
    try (left; intros; discriminate).
  right. exists a, b, c. split; [reflexivity|].
  destruct (float b) as [tv|]; [|now left].
  right. destruct (float c) as [hv|]; [right|left]; eauto.
Qed.

(** No handler lets an exception out. *)
Lemma got_data_returns d s : exists b, result_of (got_data float d s) = Ret b.
Proof.
  destruct (got_data_cases d s) as [H|(i & t & h & E & [Ht|[(tv & Ht & Hh)|(tv & hv & Ht & Hh)]])].
  - rewrite (got_data_bad_count _ _ H). eexists; reflexivity.
  - rewrite (got_data_bad_temperature _ _ _ _ _ E Ht). eexists; reflexivity.
  - rewrite (got_data_bad_humidity _ _ _ _ _ _ E Ht Hh). eexists; reflexivity.
  - rewrite (got_data_ok _ _ _ _ _ _ _ E Ht Hh). eexists; reflexivity.
Qed.

Lemma got_info_run i s :
  got_info i s =
    match split ":" i with
    | [_; sc; i'; v] =>
        (Ret false,
         mkSensor (Some i') (Some v) (Some sc) (line s) (temperature s) (humidity s),
         [Debug (TempSensorBoot sc i' v)])
    | fields =>
        (Ret false, s,
         [Debug (GotInfoFailed i (ValueError_unpack 4 (List.length fields))); Sleep 1])
    end.
Proof.
  unfold got_info. run.
  destruct (split ":" i) as [|a [|b [|c [|e [|g r]]]]]; reflexivity.
Qed.

Lemma got_info_returns i s : result_of (got_info i s) = Ret false.
Proof.
  rewrite got_info_run.
  destruct (split ":" i) as [|a [|b [|c [|e [|g r]]]]]; reflexivity.
Qed.

Lemma got_error_run e s :
  got_error e s = (Ret false, s, [Debug (SensorError (id s) e)]).
Proof. reflexivity. Qed.

(** Only [got_info] assigns [scale], [id] and [ver]. *)
Lemma got_data_identity d s : identity (state_of (got_data float d s)) = identity s.
Proof.
  destruct (got_data_cases d s) as [H|(i & t & h & E & [Ht|[(tv & Ht & Hh)|(tv & hv & Ht & Hh)]])].
  - rewrite (got_data_bad_count _ _ H). reflexivity.
  - rewrite (got_data_bad_temperature _ _ _ _ _ E Ht). reflexivity.
  - rewrite (got_data_bad_humidity _ _ _ _ _ _ E Ht Hh). reflexivity.
  - rewrite (got_data_ok _ _ _ _ _ _ _ E Ht Hh). reflexivity.
Qed.

(** ** Facts about [process] *)

(** A handler that returns is what [process] returns: the [except] arm
    is not taken. *)
Lemma process_handler l s handler :
  line s = Some l ->
  dispatch float (slice_to 2 l) = Some handler ->
  (exists b, result_of (handler (slice_from 2 l) s) = Ret b) ->
  process float s = handler (slice_from 2 l) s.
Proof.
  intros Hl Hd [b Hb]. unfold process. unfold_monad. step.
  rewrite Hl. step. rewrite Hd. step.
  destruct (handler (slice_from 2 l) s) as [[r s1] tr].
  unfold result_of in Hb. simpl in Hb. subst r.
  rewrite app_nil_r. reflexivity.
Qed.

Lemma process_data d s :
  line s = Some ("D:" ++ d)%string -> process float s = got_data float d s.
Proof.
  intros Hl. apply (process_handler _ _ (got_data float) Hl); [reflexivity|].
  apply got_data_returns.
Qed.

Lemma process_info i s :
  line s = Some ("I:" ++ i)%string -> process float s = got_info i s.
Proof.
  intros Hl. apply (process_handler _ _ got_info Hl); [reflexivity|].
  exists false. apply got_info_returns.
Qed.

Lemma process_error e s :
  line s = Some ("E:" ++ e)%string -> process float s = got_error e s.
Proof.
  intros Hl. apply (process_handler _ _ got_error Hl); [reflexivity|].
  exists false. reflexivity.
Qed.

Lemma process_no_line s : line s = None -> process float s = (Ret false, s, []).
Proof. intros Hl. unfold process. run. rewrite Hl. reflexivity. Qed.

Lemma process_unknown l s :
  line s = Some l ->
  dispatch float (slice_to 2 l) = None ->
  process float s =
    (Ret false, s, [Debug (InvalidData (KeyError (slice_to 2 l)) l); Sleep 1]).
Proof.
  intros Hl Hd. unfold process. unfold_monad. step.
  rewrite Hl. step. rewrite Hd. reflexivity.
Qed.

(** The dictionary has exactly the three keys. *)
Lemma dispatch_keys m_type :
  dispatch float m_type = None <->
  (m_type <> "I:" /\ m_type <> "D:" /\ m_type <> "E:").
Proof.
  unfold dispatch.
  destruct (String.eqb_spec m_type "I:"); [split; [discriminate|tauto]|].
  destruct (String.eqb_spec m_type "D:"); [split; [discriminate|tauto]|].
  destruct (String.eqb_spec m_type "E:"); [split; [discriminate|tauto]|].
  tauto.
Qed.

Lemma tag_payload l tag :
  String.length tag = 2 -> slice_to 2 l = tag -> l = (tag ++ slice_from 2 l)%string.
Proof.
  destruct tag as [|a [|b [|c r]]]; simpl; try discriminate. intros _.
  destruct l as [|x [|y r]]; simpl; try discriminate.
  intros E. injection E as -> ->. reflexivity.
Qed.

(** [process] never raises. *)
Lemma process_returns s : exists b, result_of (process float s) = Ret b.
Proof.
  destruct (line s) as [l|] eqn:Hl.
  2:{ rewrite (process_no_line _ Hl). eexists; reflexivity. }
  destruct (dispatch float (slice_to 2 l)) as [handler|] eqn:Hd.
  2:{ rewrite (process_unknown _ _ Hl Hd). eexists; reflexivity. }
  unfold dispatch in Hd.
  destruct (String.eqb_spec (slice_to 2 l) "I:") as [E|_].
  { rewrite (tag_payload l "I:" eq_refl E) in Hl.
    rewrite (process_info _ _ Hl). exists false. apply got_info_returns. }
  destruct (String.eqb_spec (slice_to 2 l) "D:") as [E|_].
  { rewrite (tag_payload l "D:" eq_refl E) in Hl.
    rewrite (process_data _ _ Hl). apply got_data_returns. }
  destruct (String.eqb_spec (slice_to 2 l) "E:") as [E|_]; [|discriminate].
  rewrite (tag_payload l "E:" eq_refl E) in Hl.
  rewrite (process_error _ _ Hl). exists false. reflexivity.
Qed.

(** ** Facts about [read] and the loop body *)

Lemma read_failed ex s :
  read (ReadError ex) s =
    (Ret tt,
     mkSensor (id s) (ver s) (scale s) None (temperature s) (humidity s),
     [Debug (ReadFailed ex); Sleep 1]).
Proof. reflexivity. Qed.

Lemma read_decoded data_rd raw s :
  decode data_rd = inl raw ->
  read (Line data_rd) s =
    (Ret tt,
     mkSensor (id s) (ver s) (scale s) (Some (strip raw)) (temperature s) (humidity s),
     []).
Proof. intros E. unfold read. unfold_monad. step. rewrite E. reflexivity. Qed.

(** [decode] is outside the [try] of [read]: its exception leaves
    [read] with [self.line] already reset. *)
Lemma read_undecodable data_rd ex s :
  decode data_rd = inr ex ->
  read (Line data_rd) s =
    (Raise ex,
     mkSensor (id s) (ver s) (scale s) None (temperature s) (humidity s),
     []).
Proof. intros E. unfold read. unfold_monad. step. rewrite E. reflexivity. Qed.

(** The loop body in terms of what [read] then [process] gave. *)
Lemma iteration_not_forwarded cfg inp s s1 tr1 :
  bind (read (readline inp)) (fun _ => process float) s = (Ret false, s1, tr1) ->
  iteration float cfg inp s = (Ret tt, s1, tr1).
Proof.
  unfold iteration, bind. intros H.
  destruct (read (readline inp) s) as [[[[]|ex] s0] t0]; [|discriminate].
  destruct (process float s0) as [[r s2] t2].
  injection H as -> -> <-. unfold ret. rewrite app_nil_r. reflexivity.
Qed.

Lemma iteration_forwarded cfg inp s s1 tr1 :
  bind (read (readline inp)) (fun _ => process float) s = (Ret true, s1, tr1) ->
  iteration float cfg inp s =
    (Ret tt, s1,
     tr1 ++
     WritePoints (mkPoint (influxdb_table cfg) (sensor_location cfg) (ctime inp)
                          (temperature s1) (humidity s1)) ::
     match write_error inp with
     | None => []
     | Some ex => [Debug (InfluxError ex); Sleep 1]
     end).
Proof.
  unfold iteration, bind. intros H.
  destruct (read (readline inp) s) as [[[[]|ex] s0] t0]; [|discriminate].
  destruct (process float s0) as [[r s2] t2].
  injection H as -> -> <-. unfold write_points. unfold_monad. step.
  destruct (write_error inp) as [ex|]; simpl; rewrite <- app_assoc; reflexivity.
Qed.

(** The loop body returns whenever the bytes read decode as ASCII (or
    the read itself failed). *)
Lemma iteration_returns cfg inp s :
  match readline inp with
  | Line data_rd => forallb (fun b => Byte.to_nat b <? 128) data_rd = true
  | ReadError _ => True
  end ->
  result_of (iteration float cfg inp s) = Ret tt.
Proof.
  intros H.
  assert (exists b s1 tr1,
    bind (read (readline inp)) (fun _ => process float) s = (Ret b, s1, tr1))
    as (b & s1 & tr1 & E).
  { unfold bind at 1. destruct (readline inp) as [data_rd|ex].
    - destruct (decode_from_ascii 0 data_rd H) as [raw Hraw].
      rewrite (read_decoded _ _ _ Hraw).
      match goal with |- context [process float ?s0] =>
        destruct (process_returns s0) as [b Hb];
        destruct (process float s0) as [[r s2] t2] end.
      unfold result_of in Hb; simpl in Hb; subst r. eauto.
    - rewrite read_failed.
      match goal with |- context [process float ?s0] =>
        destruct (process_returns s0) as [b Hb];
        destruct (process float s0) as [[r s2] t2] end.
      unfold result_of in Hb; simpl in Hb; subst r. eauto. }
  destruct b.
  - rewrite (iteration_forwarded _ _ _ _ _ E). reflexivity.
  - rewrite (iteration_not_forwarded _ _ _ _ _ E). reflexivity.
Qed.


Lemma no_reading_app (a b : list (event F)) :
  no_reading (a ++ b) = no_reading a && no_reading b.
Proof. apply forallb_app. Qed.

Lemma no_reading_id_changed_log s i : no_reading (id_changed_log s i) = true.
Proof. unfold id_changed_log. destruct (differs (id s) i); reflexivity. Qed.

(** ** The properties of the specification *)

(** C1, as the code has it.  For a data payload of exactly three fields
    of which a numeric one is not a float: [got_data] returns [False],
    hands nothing upstream, and leaves [scale], [id], [ver], [line] and
    [humidity] as they were.  When the temperature text is the one that
    fails, the whole state is as before.  When the temperature text is a
    float and only the humidity text fails, [self.temperature] has
    already been assigned the parsed temperature. *)
Theorem got_data_float_failure d i t h s :
  split ":" d = [i; t; h] ->
  float t = None \/ float h = None ->
  result_of (got_data float d s) = Ret false /\
  no_reading (trace_of (got_data float d s)) = true /\
  identity (state_of (got_data float d s)) = identity s /\
  line (state_of (got_data float d s)) = line s /\
  humidity (state_of (got_data float d s)) = humidity s /\
  (float t = None -> state_of (got_data float d s) = s) /\
  (forall tv, float t = Some tv ->
     temperature (state_of (got_data float d s)) = Some tv).
Proof.
  intros E H.
  destruct (float t) as [tv|] eqn:Ht.
  - destruct H as [H|Hh]; [discriminate|].
    rewrite (got_data_bad_humidity _ _ _ _ _ _ E Ht Hh).
    unfold result_of, trace_of, state_of; simpl.
    repeat split; try discriminate.
    + rewrite no_reading_app, no_reading_id_changed_log. reflexivity.
    + intros tv' [= <-]. reflexivity.
  - rewrite (got_data_bad_temperature _ _ _ _ _ E Ht).
    unfold result_of, trace_of, state_of; simpl.
    repeat split; try discriminate.
    rewrite no_reading_app, no_reading_id_changed_log. reflexivity.
Qed.


(** C3, at the input where the code departs from it.  A line holding the
    byte 0xff makes [decode] raise outside every [try]: the exception
    leaves the loop body, and the loop handles none of the lines that
    follow. *)
Theorem non_ascii_line_escapes cfg now wr rest s :
  let inp := mkInput (Line [xff; x0a]) now wr in
  let s' := mkSensor (id s) (ver s) (scale s) None (temperature s) (humidity s) in
  iteration float cfg inp s = (Raise (UnicodeDecodeError xff 0), s', []) /\
  main_loop float cfg (inp :: rest) s = (Raise (UnicodeDecodeError xff 0), s', []).
Proof. split; reflexivity. Qed.

(** C4, as the code has it.  For bytes that decode and strip to a line
    [D:id:t:h] whose three fields hold no colon and whose [t] and [h] are
    floats: [read] then [process] return [True] without raising,
    [self.temperature] and [self.humidity] hold the parsed values, and
    the line's id is passed, with the two texts, to the [data] log call.
    The loop body then hands [write_points] one point: the configured
    table and location, the time read, and the two parsed values.  The
    point has no field for a sensor id. *)
Theorem data_line_forwards_measurement cfg inp data_rd raw i t h tv hv s :
  contains ":" i = false -> contains ":" t = false -> contains ":" h = false ->
  float t = Some tv -> float h = Some hv ->
  readline inp = Line data_rd ->
  decode data_rd = inl raw ->
  strip raw = ("D:" ++ i ++ ":" ++ t ++ ":" ++ h)%string ->
  let s1 := mkSensor (id s) (ver s) (scale s) (Some (strip raw)) (Some tv) (Some hv) in
  let json := mkPoint (influxdb_table cfg) (sensor_location cfg) (ctime inp)
                      (Some tv) (Some hv) in
  bind (read (readline inp)) (fun _ => process float) s =
    (Ret true, s1, id_changed_log s i ++ [Data i t h]) /\
  iteration float cfg inp s =
    (Ret tt, s1,
     (id_changed_log s i ++ [Data i t h]) ++
     WritePoints json ::
     match write_error inp with
     | None => []
     | Some ex => [Debug (InfluxError ex); Sleep 1]
     end).
Proof.
  intros Hi Hc Hh Ht Hv Hrd Hdec Hstrip s1 json.
  assert (H : bind (read (readline inp)) (fun _ => process float) s =
              (Ret true, s1, id_changed_log s i ++ [Data i t h])).
  { unfold bind. rewrite Hrd, (read_decoded _ _ _ Hdec).
    rewrite (process_data (i ++ ":" ++ t ++ ":" ++ h)) by (simpl; now rewrite Hstrip).
    rewrite (got_data_ok _ i t h tv hv _ (split_three _ _ _ Hi Hc Hh) Ht Hv).
    reflexivity. }
  split; [exact H|].
  rewrite (iteration_forwarded _ _ _ _ _ H). reflexivity.
Qed.

(** C5.  For a line whose first two characters are none of [I:], [D:],
    [E:] (every line shorter than two characters is one), [process]
    returns [False] without raising, logs the line as invalid data with
    the [KeyError], sleeps a second and leaves the state alone. *)
Theorem unknown_tag_is_malformed l s :
  line s = Some l ->
  String.length l < 2 \/
    (slice_to 2 l <> "I:" /\ slice_to 2 l <> "D:" /\ slice_to 2 l <> "E:") ->
  process float s =
    (Ret false, s, [Debug (InvalidData (KeyError (slice_to 2 l)) l); Sleep 1]).
Proof.
  intros Hl H. apply (process_unknown _ _ Hl), dispatch_keys.
  destruct H as [Hshort|H]; [|exact H].
  rewrite (slice_to_short _ Hshort).
  repeat split; intros ->; simpl in Hshort; lia.
Qed.

(** C6, as the code has it.  With id ["7"] stored, the loop body on the
    bytes of the line [D:9:20.0:50.0] is not stopped by the mismatch:
    [process] returns [True], the change of id from ["7"] to ["9"] is
    logged, the id ["9"] is passed to the [data] log call, and
    [write_points] is handed the point with the two parsed values.  The
    point has no field for a sensor id. *)
Theorem mismatched_data_still_forwarded cfg now wr tv hv s :
  id s = Some "7" ->
  float "20.0" = Some tv -> float "50.0" = Some hv ->
  let inp := mkInput (Line (encode "D:9:20.0:50.0" ++ [x0a])) now wr in
  let s1 := mkSensor (Some "7") (ver s) (scale s) (Some "D:9:20.0:50.0")
                     (Some tv) (Some hv) in
  let json := mkPoint (influxdb_table cfg) (sensor_location cfg) now
                      (Some tv) (Some hv) in
  bind (read (readline inp)) (fun _ => process float) s =
    (Ret true, s1, [Debug (IdChanged (Some "7") "9"); Data "9" "20.0" "50.0"]) /\
  iteration float cfg inp s =
    (Ret tt, s1,
     [Debug (IdChanged (Some "7") "9"); Data "9" "20.0" "50.0"; WritePoints json] ++
     match wr with
     | None => []
     | Some ex => [Debug (InfluxError ex); Sleep 1]
     end).
Proof.
  intros Hid Ht Hh inp s1 json.
  assert (H : bind (read (readline inp)) (fun _ => process float) s =
              (Ret true, s1, [Debug (IdChanged (Some "7") "9"); Data "9" "20.0" "50.0"])).
  { unfold bind at 1. subst inp. simpl readline.
    erewrite read_decoded by reflexivity.
    match goal with |- context [strip ?x] =>
      change (strip x) with "D:9:20.0:50.0" end.
    rewrite (process_data "9:20.0:50.0") by reflexivity.
    rewrite (got_data_ok "9:20.0:50.0" "9" "20.0" "50.0" tv hv) by auto.
    unfold id_changed_log. simpl. rewrite Hid. reflexivity. }
  split; [exact H|].
  rewrite (iteration_forwarded _ _ _ _ _ H). reflexivity.
Qed.

(** C7.  When [read] and [process] gave a measurement to forward and
    [write_points] raises, the loop body calls [write_points] once, logs
    the exception, sleeps a second and returns; it ends in the state a
    successful write ends in, and the loop goes on with the next line
    from that state. *)
Theorem sink_failure_continues cfg inp rest ex s s1 tr1 :
  bind (read (readline inp)) (fun _ => process float) s = (Ret true, s1, tr1) ->
  write_error inp = Some ex ->
  let json := mkPoint (influxdb_table cfg) (sensor_location cfg) (ctime inp)
                      (temperature s1) (humidity s1) in
  let tr := tr1 ++ [WritePoints json; Debug (InfluxError ex); Sleep 1] in
  let next := main_loop float cfg rest s1 in
  iteration float cfg inp s = (Ret tt, s1, tr) /\
  state_of (iteration float cfg (mkInput (readline inp) (ctime inp) None) s) = s1 /\
  main_loop float cfg (inp :: rest) s =
    (result_of next, state_of next, tr ++ trace_of next).
Proof.
  intros H Hw json tr next.
  assert (Hit : iteration float cfg inp s = (Ret tt, s1, tr)).
  { rewrite (iteration_forwarded _ _ _ _ _ H), Hw. reflexivity. }
  split; [exact Hit|]. split.
  - rewrite (iteration_forwarded cfg (mkInput (readline inp) (ctime inp) None)
               s s1 tr1 H).
    reflexivity.
  - simpl. unfold bind at 1. rewrite Hit. fold next.
    destruct next as [[r s2] t2]. reflexivity.
Qed.

(** C8.  When [readline] raises, [read] logs the exception and sleeps a
    second, [process] finds no line and returns [False] without calling
    a handler, and the loop body returns with nothing forwarded; the
    attributes other than the reset [line] are unchanged. *)
Theorem read_failure_skips_dispatch cfg ex now wr s :
  let s' := mkSensor (id s) (ver s) (scale s) None (temperature s) (humidity s) in
  let tr := [Debug (ReadFailed ex); Sleep 1] in
  bind (read (ReadError ex)) (fun _ => process float) s = (Ret false, s', tr) /\
  iteration float cfg (mkInput (ReadError ex) now wr) s = (Ret tt, s', tr).
Proof. split; reflexivity. Qed.

(** C9.  Reading and processing the line [I:boot:C:42:1.0] twice from
    any state ends in the state that doing it once ends in, with scale
    ["C"], id ["42"] and version ["1.0"]; each pass only logs the boot
    message, and nothing is forwarded. *)
Theorem info_twice_idempotent cfg now1 wr1 now2 wr2 s :
  let boot := Line (encode "I:boot:C:42:1.0" ++ [x0a]) in
  let once := main_loop float cfg [mkInput boot now1 wr1] s in
  let twice := main_loop float cfg [mkInput boot now1 wr1; mkInput boot now2 wr2] s in
  result_of twice = Ret tt /\
  identity (state_of twice) = (Some "C", Some "42", Some "1.0") /\
  state_of twice = state_of once /\
  trace_of once = [Debug (TempSensorBoot "C" "42" "1.0")] /\
  trace_of twice = [Debug (TempSensorBoot "C" "42" "1.0");
                    Debug (TempSensorBoot "C" "42" "1.0")].
Proof. repeat split. Qed.

(** C10.  [got_data] leaves [scale], [id] and [ver] as they were for
    every payload, and so does [process] on every line whose tag is not
    [I:]. *)
Theorem only_info_writes_identity l d s :
  line s = Some l ->
  slice_to 2 l <> "I:" ->
  identity (state_of (got_data float d s)) = identity s /\
  identity (state_of (process float s)) = identity s.
Proof.
  intros Hl Htag. split; [apply got_data_identity|].
  destruct (dispatch float (slice_to 2 l)) as [handler|] eqn:Hd.
  2:{ rewrite (process_unknown _ _ Hl Hd). reflexivity. }
  unfold dispatch in Hd.
  destruct (String.eqb_spec (slice_to 2 l) "I:") as [E|_]; [contradiction|].
  destruct (String.eqb_spec (slice_to 2 l) "D:") as [E|_].
  { rewrite (tag_payload l "D:" eq_refl E) in Hl.
    rewrite (process_data _ _ Hl). apply got_data_identity. }
  destruct (String.eqb_spec (slice_to 2 l) "E:") as [E|_]; [|discriminate].
  rewrite (tag_payload l "E:" eq_refl E) in Hl.
  rewrite (process_error _ _ Hl). reflexivity.
Qed.

End SensorFacts.

(** ** The properties on concrete lines *)

(** C1 as stated fails: the payload [7:21.5:abc] has three fields and its
    humidity text is not a float, yet [got_data] leaves the stored
    temperature at 21.5 instead of the 20 it was, next to the old
    humidity. *)
Lemma got_data_partial_overwrite :
  split ":" "7:21.5:abc" = ["7"; "21.5"; "abc"] /\
  decimal_float "abc" = None /\
  result_of (got_data decimal_float "7:21.5:abc" booted) = Ret false /\
  temperature booted = Some 20%Q /\
  temperature (state_of (got_data decimal_float "7:21.5:abc" booted)) = Some (43 # 2)%Q /\
  humidity (state_of (got_data decimal_float "7:21.5:abc" booted)) = Some 50%Q /\
  state_of (got_data decimal_float "7:21.5:abc" booted) <> booted.
Proof. repeat split. discriminate. Qed.

Lemma got_data_float_failure_witness :
  result_of (got_data decimal_float "7:21.5:abc" booted) = Ret false /\
  identity (state_of (got_data decimal_float "7:21.5:abc" booted)) = identity booted /\
  temperature (state_of (got_data decimal_float "7:21.5:abc" booted)) = Some (43 # 2)%Q.
Proof.
  pose proof (got_data_float_failure decimal_float "7:21.5:abc" "7" "21.5" "abc"
                booted eq_refl (or_intror eq_refl)) as (Hr & _ & Hi & _ & _ & _ & Ht).
  exact (conj Hr (conj Hi (Ht _ eq_refl))).
Defined.



(** C4 as stated fails: the lines [D:7:21.5:48.0] and [D:9:21.5:48.0]
    make the loop hand [write_points] the same point, so nothing in what
    is forwarded equals the line's id. *)
Lemma written_point_has_no_sensor_id :
  written (trace_of (iteration decimal_float house
                       (mkInput (wire "D:7:21.5:48.0") "Mon" None) booted)) =
    [mkPoint "climate" "attic" "Mon" (Some (43 # 2)%Q) (Some 48%Q)] /\
  written (trace_of (iteration decimal_float house
                       (mkInput (wire "D:9:21.5:48.0") "Mon" None) booted)) =
    [mkPoint "climate" "attic" "Mon" (Some (43 # 2)%Q) (Some 48%Q)] /\
  ~ exists sensorId : point Q -> string,
      (forall p, In p (written (trace_of (iteration decimal_float house
                       (mkInput (wire "D:7:21.5:48.0") "Mon" None) booted))) ->
                 sensorId p = "7") /\
      (forall p, In p (written (trace_of (iteration decimal_float house
                       (mkInput (wire "D:9:21.5:48.0") "Mon" None) booted))) ->
                 sensorId p = "9").
Proof.
  split; [reflexivity|]. split; [reflexivity|].
  intros (sensorId & H7 & H9).
  pose proof (H7 (mkPoint "climate" "attic" "Mon" (Some (43 # 2)%Q) (Some 48%Q))
                 (or_introl eq_refl)) as E7.
  pose proof (H9 (mkPoint "climate" "attic" "Mon" (Some (43 # 2)%Q) (Some 48%Q))
                 (or_introl eq_refl)) as E9.
  rewrite E7 in E9. discriminate.
Qed.

Lemma data_line_forwards_measurement_witness :
  iteration decimal_float house (mkInput (wire "D:7:21.5:48.0") "Mon" None) booted =
    (Ret tt,
     mkSensor (Some "7") (Some "2.1") (Some "C") (Some "D:7:21.5:48.0")
              (Some (43 # 2)%Q) (Some 48%Q),
     [Data "7" "21.5" "48.0";
      WritePoints (mkPoint "climate" "attic" "Mon" (Some (43 # 2)%Q) (Some 48%Q))]).
Proof.
  exact (proj2 (data_line_forwards_measurement decimal_float house
                  (mkInput (wire "D:7:21.5:48.0") "Mon" None)
                  (encode "D:7:21.5:48.0" ++ [x0a])
                  ("D:7:21.5:48.0" ++ String "010" EmptyString)%string
                  "7" "21.5" "48.0" (43 # 2)%Q 48%Q booted
                  eq_refl eq_refl eq_refl eq_refl eq_refl eq_refl eq_refl eq_refl)).
Defined.

Lemma unknown_tag_is_malformed_witness :
  process decimal_float (with_line "X:1:2" booted) =
    (Ret false, with_line "X:1:2" booted,
     [Debug (InvalidData (KeyError "X:") "X:1:2"); Sleep 1]) /\
  process decimal_float (with_line "D" booted) =
    (Ret false, with_line "D" booted,
     [Debug (InvalidData (KeyError "D") "D"); Sleep 1]).
Proof.
  split.
  - apply (unknown_tag_is_malformed decimal_float "X:1:2"
             (with_line "X:1:2" booted) eq_refl).
    right. repeat split; discriminate.
  - apply (unknown_tag_is_malformed decimal_float "D"
             (with_line "D" booted) eq_refl).
    left. simpl. lia.
Defined.

(** C6 as stated fails: with id 7 stored, the point written for the line
    [D:9:20.0:50.0] is the point written for [D:7:20.0:50.0]; it holds
    the table, the location, the time and the two values, and no id 9. *)
Lemma mismatched_point_has_no_sensor_id :
  id booted = Some "7" /\
  written (trace_of (iteration decimal_float house
                       (mkInput (wire "D:9:20.0:50.0") "Mon" None) booted)) =
    [mkPoint "climate" "attic" "Mon" (Some 20%Q) (Some 50%Q)] /\
  written (trace_of (iteration decimal_float house
                       (mkInput (wire "D:7:20.0:50.0") "Mon" None) booted)) =
    [mkPoint "climate" "attic" "Mon" (Some 20%Q) (Some 50%Q)] /\
  ~ exists sensorId : point Q -> string,
      (forall p, In p (written (trace_of (iteration decimal_float house
                       (mkInput (wire "D:9:20.0:50.0") "Mon" None) booted))) ->
                 sensorId p = "9") /\
      (forall p, In p (written (trace_of (iteration decimal_float house
                       (mkInput (wire "D:7:20.0:50.0") "Mon" None) booted))) ->
                 sensorId p = "7").
Proof.
  split; [reflexivity|]. split; [reflexivity|]. split; [reflexivity|].
  intros (sensorId & H9 & H7).
  pose proof (H7 (mkPoint "climate" "attic" "Mon" (Some 20%Q) (Some 50%Q))
                 (or_introl eq_refl)) as E7.
  pose proof (H9 (mkPoint "climate" "attic" "Mon" (Some 20%Q) (Some 50%Q))
                 (or_introl eq_refl)) as E9.
  rewrite E7 in E9. discriminate.
Qed.

Lemma mismatched_data_still_forwarded_witness :
  iteration decimal_float house (mkInput (wire "D:9:20.0:50.0") "Mon" None) booted =
    (Ret tt,
     mkSensor (Some "7") (Some "2.1") (Some "C") (Some "D:9:20.0:50.0")
              (Some 20%Q) (Some 50%Q),
     [Debug (IdChanged (Some "7") "9"); Data "9" "20.0" "50.0";
      WritePoints (mkPoint "climate" "attic" "Mon" (Some 20%Q) (Some 50%Q))]).
Proof.
  exact (proj2 (mismatched_data_still_forwarded decimal_float house "Mon" None
                  20%Q 50%Q booted eq_refl eq_refl eq_refl)).
Defined.

Lemma sink_failure_continues_witness :
  main_loop decimal_float house
    [mkInput (wire "D:7:21.5:48.0") "Mon" (Some (ExternalError "timeout"));
     mkInput (wire "D:7:22.0:47.0") "Tue" None] booted =
  (Ret tt,
   mkSensor (Some "7") (Some "2.1") (Some "C") (Some "D:7:22.0:47.0")
            (Some 22%Q) (Some 47%Q),
   [Data "7" "21.5" "48.0";
    WritePoints (mkPoint "climate" "attic" "Mon" (Some (43 # 2)%Q) (Some 48%Q));
    Debug (InfluxError (ExternalError "timeout"));
    Sleep 1;
    Data "7" "22.0" "47.0";
    WritePoints (mkPoint "climate" "attic" "Tue" (Some 22%Q) (Some 47%Q))]).
Proof.
  exact (proj2 (proj2
    (sink_failure_continues decimal_float house
       (mkInput (wire "D:7:21.5:48.0") "Mon" (Some (ExternalError "timeout")))
       [mkInput (wire "D:7:22.0:47.0") "Tue" None]
       (ExternalError "timeout") booted
       (mkSensor (Some "7") (Some "2.1") (Some "C") (Some "D:7:21.5:48.0")
                 (Some (43 # 2)%Q) (Some 48%Q))
       [Data "7" "21.5" "48.0"]
       eq_refl eq_refl))).
Defined.

Lemma only_info_writes_identity_witness :
  identity (state_of (process decimal_float (with_line "D:9:20.0:50.0" booted))) =
    (Some "C", Some "7", Some "2.1").
Proof.
  refine (proj2 (only_info_writes_identity decimal_float "D:9:20.0:50.0" ""
                   (with_line "D:9:20.0:50.0" booted) eq_refl _)).
  discriminate.
Defined.

(** ** Further facts about the handlers *)

Lemma split_length sep s : List.length (split sep s) = S (occurrences sep s).
Proof.
  induction s as [|c r IH]; simpl; [reflexivity|].
  destruct (Ascii.eqb c sep); simpl; [now rewrite IH|].
  destruct (split sep r) as [|h t] eqn:E; [now destruct (split_not_nil sep r)|].
  simpl in *. exact IH.
Qed.

Lemma occurrences_none sep s : contains sep s = false -> occurrences sep s = 0.
Proof.
  induction s as [|c r IH]; simpl; intros H; [reflexivity|].
  apply orb_false_elim in H as [Hc Hr]. rewrite Hc, (IH Hr). reflexivity.
Qed.

Lemma split_four b sc i v :
  contains ":" b = false -> contains ":" sc = false ->
  contains ":" i = false -> contains ":" v = false ->
  split ":" (b ++ ":" ++ sc ++ ":" ++ i ++ ":" ++ v) = [b; sc; i; v].
Proof.
  intros Hb Hs Hi Hv. simpl.
  rewrite (split_app _ _ _ Hb), (split_app _ _ _ Hs), (split_app _ _ _ Hi),
    (split_no_sep _ _ Hv).
  reflexivity.
Qed.

Section HandlerFacts.

Context {F : Type} (float : string -> option F).

Implicit Types (s : Sensor F) (d i t h l e : string).

(** An info payload that does not hold exactly three colons fails the
    unpacking into four names: [got_info] logs the payload with the
    [ValueError] (which counts the fields found), sleeps a second,
    returns [False] and assigns nothing. *)
Theorem got_info_wrong_field_count i s :
  occurrences ":" i <> 3 ->
  got_info i s =
    (Ret false, s,
     [Debug (GotInfoFailed i (ValueError_unpack 4 (S (occurrences ":" i))));
      Sleep 1]).
Proof.
  intros H. rewrite got_info_run.
  pose proof (split_length ":" i) as L.
  destruct (split ":" i) as [|a [|b [|c [|e [|g r]]]]]; simpl in L;
    try (rewrite <- L; reflexivity).
  exfalso. apply H. lia.
Qed.

(** A data payload that does not hold exactly two colons fails the
    unpacking into three names: [got_data] logs the payload with the
    [ValueError], sleeps a second, returns [False] and assigns nothing;
    [float] is not reached. *)
Theorem got_data_wrong_field_count d s :
  occurrences ":" d <> 2 ->
  got_data float d s =
    (Ret false, s,
     [Debug (GotDataFailed d (ValueError_unpack 3 (S (occurrences ":" d))));
      Sleep 1]).
Proof.
  intros H. rewrite <- split_length. apply got_data_bad_count.
  intros a b c E. apply H.
  pose proof (split_length ":" d) as L. rewrite E in L. simpl in L. lia.
Qed.

(** A line [I:boot:scale:id:version] with colon-free fields: [process]
    stores the last three fields as [scale], [id] and [ver] whatever they
    were before and whatever the first field is, logs the boot message,
    returns [False] without sleeping, and leaves [line], [temperature]
    and [humidity] alone. *)
Theorem info_line_sets_identity b sc i v s :
  contains ":" b = false -> contains ":" sc = false ->
  contains ":" i = false -> contains ":" v = false ->
  line s = Some ("I:" ++ b ++ ":" ++ sc ++ ":" ++ i ++ ":" ++ v)%string ->
  process float s =
    (Ret false,
     mkSensor (Some i) (Some v) (Some sc) (line s) (temperature s) (humidity s),
     [Debug (TempSensorBoot sc i v)]).
Proof.
  intros Hb Hs Hi Hv Hl.
  rewrite (process_info _ _ _ Hl), got_info_run, (split_four _ _ _ _ Hb Hs Hi Hv).
  reflexivity.
Qed.

(** [got_info] is idempotent on every payload, well formed or not: run
    again on the state it left, it returns the same value, leaves that
    state as it is and logs the same events. *)
Theorem got_info_idempotent i s :
  got_info i (state_of (got_info i s)) =
    (result_of (got_info i s), state_of (got_info i s), trace_of (got_info i s)).
Proof.
  rewrite !got_info_run.
  destruct (split ":" i) as [|a [|b [|c [|e [|g r]]]]]; reflexivity.
Qed.

(** A line [E:text]: [process] logs the whole remainder of the line,
    colons included, with the stored id, returns [False] without
    sleeping and leaves the state alone. *)
Theorem error_line_logged_whole e s :
  line s = Some ("E:" ++ e)%string ->
  process float s = (Ret false, s, [Debug (SensorError (id s) e)]).
Proof. intros Hl. rewrite (process_error _ _ _ Hl). reflexivity. Qed.

(** The five ways [process] can go. *)
Lemma process_cases s :
  line s = None \/
  (exists l, line s = Some l /\ dispatch float (slice_to 2 l) = None) \/
  (exists i, line s = Some ("I:" ++ i)%string) \/
  (exists d, line s = Some ("D:" ++ d)%string) \/
  (exists e, line s = Some ("E:" ++ e)%string).
Proof.
  destruct (line s) as [l|]; [right|now left].
  destruct (dispatch float (slice_to 2 l)) as [handler|] eqn:Hd; [right|left; eauto].
  unfold dispatch in Hd.
  destruct (String.eqb_spec (slice_to 2 l) "I:") as [E|_].
  { left. exists (slice_from 2 l). f_equal. exact (tag_payload l "I:" eq_refl E). }
  destruct (String.eqb_spec (slice_to 2 l) "D:") as [E|_].
  { right; left. exists (slice_from 2 l). f_equal. exact (tag_payload l "D:" eq_refl E). }
  destruct (String.eqb_spec (slice_to 2 l) "E:") as [E|_]; [|discriminate].
  right; right. exists (slice_from 2 l). f_equal. exact (tag_payload l "E:" eq_refl E).
Qed.

(** [process] returns [True] only for a [D:] line whose payload has
    three fields of which the second and third are floats, and then
    [temperature] and [humidity] hold exactly these two values: what the
    loop forwards was parsed from the line it has just read. *)
Theorem process_true_only_for_data s :
  result_of (process float s) = Ret true ->
  exists d i t h tv hv,
    line s = Some ("D:" ++ d)%string /\
    split ":" d = [i; t; h] /\
    float t = Some tv /\ float h = Some hv /\
    temperature (state_of (process float s)) = Some tv /\
    humidity (state_of (process float s)) = Some hv.
Proof.
  destruct (process_cases s) as [Hl|[(l & Hl & Hd)|[(i & Hl)|[(d & Hl)|(e & Hl)]]]].
  - rewrite (process_no_line _ _ Hl). discriminate.
  - rewrite (process_unknown _ _ _ Hl Hd). discriminate.
  - rewrite (process_info _ _ _ Hl), got_info_returns. discriminate.
  - rewrite (process_data _ _ _ Hl).
    destruct (got_data_cases float d s)
      as [H|(i & t & h & E & [Ht|[(tv & Ht & Hh)|(tv & hv & Ht & Hh)]])].
    + rewrite (got_data_bad_count _ _ _ H). discriminate.
    + rewrite (got_data_bad_temperature _ _ _ _ _ _ E Ht). discriminate.
    + rewrite (got_data_bad_humidity _ _ _ _ _ _ _ E Ht Hh). discriminate.
    + rewrite (got_data_ok _ _ _ _ _ _ _ _ E Ht Hh). intros _.
      exists d, i, t, h, tv, hv. repeat split; assumption.
  - rewrite (process_error _ _ _ Hl). discriminate.
Qed.

(** Only a [D:] line assigns [temperature] and [humidity]: on a line
    with any other tag [process] leaves both as they were. *)
Theorem only_data_writes_measurement l s :
  line s = Some l ->
  slice_to 2 l <> "D:" ->
  temperature (state_of (process float s)) = temperature s /\
  humidity (state_of (process float s)) = humidity s.
Proof.
  intros Hl Htag.
  destruct (process_cases s) as [Hn|[(l' & Hl' & Hd)|[(i & Hi)|[(d & Hd)|(e & He)]]]].
  - congruence.
  - rewrite (process_unknown _ _ _ Hl' Hd). split; reflexivity.
  - rewrite (process_info _ _ _ Hi), got_info_run.
    destruct (split ":" i) as [|a [|b [|c [|x [|g r]]]]]; split; reflexivity.
  - exfalso. apply Htag. rewrite Hl in Hd. injection Hd as ->. reflexivity.
  - rewrite (process_error _ _ _ He). split; reflexivity.
Qed.

Lemma differs_false (stored : option string) i :
  differs stored i = false <-> stored = Some i.
Proof.
  destruct stored as [x|]; simpl.
  - destruct (String.eqb_spec x i); simpl; split; congruence.
  - split; discriminate.
Qed.

(** For an accepted data payload, the change of id is logged exactly
    when the stored id is not the payload's id (a stored [None]
    included): the trace is the measurement record alone if and only if
    the ids agree, and otherwise the warning followed by the record. *)
Theorem mismatch_logged_iff_id_differs d i t h tv hv s :
  split ":" d = [i; t; h] -> float t = Some tv -> float h = Some hv ->
  (id s = Some i <-> trace_of (got_data float d s) = [Data i t h]) /\
  (id s <> Some i <->
   trace_of (got_data float d s) = [Debug (IdChanged (id s) i); Data i t h]).
Proof.
  intros E Ht Hh. rewrite (got_data_ok _ _ _ _ _ _ _ _ E Ht Hh).
  unfold trace_of, id_changed_log; simpl.
  destruct (differs (id s) i) eqn:D; simpl.
  - assert (id s <> Some i) by (intros Hid; apply differs_false in Hid; congruence).
    split; split; try discriminate; try tauto.
  - apply differs_false in D.
    split; split; try discriminate; try tauto.
Qed.

(** A data line that follows the boot line of the same id raises no
    warning: after [got_info] on [boot:scale:id:version], [got_data] on
    [id:t:h] logs the measurement record only and keeps the identity. *)
Theorem info_then_data_same_id b sc i v t h tv hv s :
  contains ":" b = false -> contains ":" sc = false ->
  contains ":" i = false -> contains ":" v = false ->
  contains ":" t = false -> contains ":" h = false ->
  float t = Some tv -> float h = Some hv ->
  got_data float (i ++ ":" ++ t ++ ":" ++ h)
    (state_of (got_info (b ++ ":" ++ sc ++ ":" ++ i ++ ":" ++ v) s)) =
    (Ret true,
     mkSensor (Some i) (Some v) (Some sc) (line s) (Some tv) (Some hv),
     [Data i t h]).
Proof.
  intros Hb Hs Hi Hv Hct Hch Ht Hh.
  rewrite got_info_run, (split_four _ _ _ _ Hb Hs Hi Hv).
  rewrite (got_data_ok float _ i t h tv hv _ (split_three _ _ _ Hi Hct Hch) Ht Hh).
  unfold id_changed_log, state_of; simpl. rewrite String.eqb_refl. reflexivity.
Qed.

End HandlerFacts.

(** ** Further facts about the loop *)

Section LoopFacts.

Context {F : Type} (float : string -> option F).

Implicit Types (s : Sensor F) (tr : list (event F)) (inp : input).

Lemma writes_app tr1 tr2 : writes (tr1 ++ tr2) = writes tr1 + writes tr2.
Proof.
  induction tr1 as [|e r IH]; simpl; [reflexivity|].
  destruct e; simpl; rewrite IH; reflexivity.
Qed.

Lemma slept_app tr1 tr2 : slept (tr1 ++ tr2) = slept tr1 + slept tr2.
Proof.
  induction tr1 as [|e r IH]; simpl; [reflexivity|].
  destruct e; simpl; rewrite IH; lia.
Qed.

Lemma written_app tr1 tr2 : written (tr1 ++ tr2) = written tr1 ++ written tr2.
Proof.
  induction tr1 as [|e r IH]; simpl; [reflexivity|].
  destruct e; simpl; rewrite IH; reflexivity.
Qed.

Lemma written_nil_writes tr : writes tr = 0 -> written tr = [].
Proof.
  induction tr as [|e r IH]; simpl; [reflexivity|].
  destruct e; simpl; auto. discriminate.
Qed.

Lemma id_changed_log_quiet s i :
  writes (id_changed_log s i) = 0 /\ slept (id_changed_log s i) = 0.
Proof. unfold id_changed_log. destruct (differs (id s) i); split; reflexivity. Qed.

(** [process] never calls [write_points], sleeps at most a second, and
    does not sleep when it returns [True]. *)
Lemma process_trace s :
  writes (trace_of (process float s)) = 0 /\
  slept (trace_of (process float s)) <= 1 /\
  (result_of (process float s) = Ret true ->
   slept (trace_of (process float s)) = 0).
Proof.
  destruct (process_cases float s)
    as [Hl|[(l & Hl & Hd)|[(i & Hl)|[(d & Hl)|(e & Hl)]]]].
  - rewrite (process_no_line _ _ Hl). simpl. auto.
  - rewrite (process_unknown _ _ _ Hl Hd). simpl. repeat split; auto; discriminate.
  - rewrite (process_info _ _ _ Hl), got_info_run.
    destruct (split ":" i) as [|a [|b [|c [|x [|g r]]]]]; simpl;
      repeat split; auto; discriminate.
  - rewrite (process_data _ _ _ Hl).
    destruct (got_data_cases float d s)
      as [H|(i & t & h & E & [Ht|[(tv & Ht & Hh)|(tv & hv & Ht & Hh)]])].
    + rewrite (got_data_bad_count _ _ _ H). simpl. repeat split; auto; discriminate.
    + rewrite (got_data_bad_temperature _ _ _ _ _ _ E Ht).
      unfold trace_of, result_of; simpl. rewrite writes_app, slept_app.
      destruct (id_changed_log_quiet s i) as [-> ->]. simpl.
      repeat split; auto; discriminate.
    + rewrite (got_data_bad_humidity _ _ _ _ _ _ _ E Ht Hh).
      unfold trace_of, result_of; simpl. rewrite writes_app, slept_app.
      destruct (id_changed_log_quiet s i) as [-> ->]. simpl.
      repeat split; auto; discriminate.
    + rewrite (got_data_ok _ _ _ _ _ _ _ _ E Ht Hh).
      unfold trace_of, result_of; simpl. rewrite writes_app, slept_app.
      destruct (id_changed_log_quiet s i) as [-> ->]. simpl.
      repeat split; auto.
  - rewrite (process_error _ _ _ Hl). simpl. auto.
Qed.

(** When [process] returns [True], both measurement attributes are set. *)
Lemma process_true_measured s :
  result_of (process float s) = Ret true ->
  temperature (state_of (process float s)) <> None /\
  humidity (state_of (process float s)) <> None.
Proof.
  destruct (process_cases float s)
    as [Hl|[(l & Hl & Hd)|[(i & Hl)|[(d & Hl)|(e & Hl)]]]].
  - rewrite (process_no_line _ _ Hl). discriminate.
  - rewrite (process_unknown _ _ _ Hl Hd). discriminate.
  - rewrite (process_info _ _ _ Hl), got_info_returns. discriminate.
  - rewrite (process_data _ _ _ Hl).
    destruct (got_data_cases float d s)
      as [H|(i & t & h & E & [Ht|[(tv & Ht & Hh)|(tv & hv & Ht & Hh)]])].
    + rewrite (got_data_bad_count _ _ _ H). discriminate.
    + rewrite (got_data_bad_temperature _ _ _ _ _ _ E Ht). discriminate.
    + rewrite (got_data_bad_humidity _ _ _ _ _ _ _ E Ht Hh). discriminate.
    + rewrite (got_data_ok _ _ _ _ _ _ _ _ E Ht Hh). intros _.
      split; discriminate.
  - rewrite (process_error _ _ _ Hl). discriminate.
Qed.

(** What [read] then [process] can give: either the bytes do not decode
    and the exception leaves with nothing logged, or both return. *)
Lemma read_process_shape inp s :
  (exists ex,
     bind (read (readline inp)) (fun _ => process float) s =
       (Raise ex,
        mkSensor (id s) (ver s) (scale s) None (temperature s) (humidity s), [])) \/
  (exists b s1 tr1,
     bind (read (readline inp)) (fun _ => process float) s = (Ret b, s1, tr1) /\
     writes tr1 = 0 /\ slept tr1 <= 1 /\
     (b = true ->
      slept tr1 = 0 /\ temperature s1 <> None /\ humidity s1 <> None)).
Proof.
  unfold bind. destruct (readline inp) as [data_rd|ex].
  - destruct (decode data_rd) as [raw|ex] eqn:E.
    + right. rewrite (read_decoded _ _ _ E).
      match goal with |- context [process float ?s0] =>
        pose proof (process_trace s0) as (Hw & Hs & Ht);
        pose proof (process_true_measured s0) as Hd;
        destruct (process_returns float s0) as [b Hb];
        destruct (process float s0) as [[r s2] t2] end.
      unfold result_of, trace_of, state_of in *; simpl in *. subst r.
      exists b, s2, t2. split; [reflexivity|].
      split; [exact Hw|]. split; [exact Hs|].
      intros ->. split; [auto|exact (Hd eq_refl)].
    + left. exists ex. rewrite (read_undecodable _ _ _ E). reflexivity.
  - right. rewrite read_failed.
    match goal with |- context [process float ?s0] =>
      rewrite (process_no_line float s0 eq_refl) end.
    do 3 eexists. split; [reflexivity|]. simpl.
    split; [reflexivity|]. split; [lia|]. discriminate.
Qed.

Lemma iteration_raised cfg inp s ex s1 tr1 :
  bind (read (readline inp)) (fun _ => process float) s = (Raise ex, s1, tr1) ->
  iteration float cfg inp s = (Raise ex, s1, tr1).
Proof.
  unfold iteration, bind. intros H.
  destruct (read (readline inp) s) as [[[[]|ex0] s0] t0].
  - destruct (process float s0) as [[[b|ex1] s2] t2]; [discriminate|].
    injection H as -> -> <-. reflexivity.
  - injection H as -> -> ->. reflexivity.
Qed.

(** One pass of the loop body: at most one [write_points], at most one
    second of sleep, and a point that is written is complete. *)
Lemma iteration_bounds cfg inp s :
  writes (trace_of (iteration float cfg inp s)) <= 1 /\
  slept (trace_of (iteration float cfg inp s)) <= 1 /\
  Forall (fun p => measurement F p = influxdb_table cfg /\
                   tags_location F p = sensor_location cfg /\
                   time F p = ctime inp /\
                   fields_temperature F p <> None /\
                   fields_humidity F p <> None)
         (written (trace_of (iteration float cfg inp s))).
Proof.
  destruct (read_process_shape inp s) as [(ex & H)|(b & s1 & tr1 & H & Hw & Hs & Ht)].
  - rewrite (iteration_raised _ _ _ _ _ _ H). simpl. auto.
  - destruct b.
    + rewrite (iteration_forwarded _ _ _ _ _ _ H).
      destruct (Ht eq_refl) as (Hs0 & Htv & Hhv).
      unfold trace_of; simpl. rewrite writes_app, slept_app, written_app.
      rewrite Hw, Hs0, (written_nil_writes _ Hw).
      destruct (write_error inp); simpl; repeat split; auto;
        repeat constructor; simpl; auto.
    + rewrite (iteration_not_forwarded _ _ _ _ _ _ H).
      unfold trace_of; simpl. rewrite (written_nil_writes _ Hw).
      repeat split; auto. lia.
Qed.

Lemma main_loop_cons cfg inp rest s :
  main_loop float cfg (inp :: rest) s =
    match iteration float cfg inp s with
    | (Ret _, s1, t1) =>
        (result_of (main_loop float cfg rest s1),
         state_of (main_loop float cfg rest s1),
         t1 ++ trace_of (main_loop float cfg rest s1))
    | (Raise ex, s1, t1) => (Raise ex, s1, t1)
    end.
Proof.
  simpl. unfold bind at 1.
  destruct (iteration float cfg inp s) as [[[[]|ex] s1] t1]; [|reflexivity].
  destruct (main_loop float cfg rest s1) as [[r s2] t2]. reflexivity.
Qed.

Lemma decode_from_first_bad data :
  is_ascii data = false ->
  exists b pos,
    nth_error data pos = Some b /\
    128 <= Byte.to_nat b /\
    is_ascii (firstn pos data) = true /\
    forall n, decode_from n data = inr (UnicodeDecodeError b (n + pos)).
Proof.
  induction data as [|x r IH]; simpl; [discriminate|].
  destruct (Nat.ltb_spec (Byte.to_nat x) 128) as [Hx|Hx]; simpl.
  - intros H. destruct (IH H) as (b & pos & Hn & Hb & Hpre & Hdec).
    exists b, (S pos). simpl. repeat split; auto.
    + destruct (Nat.ltb_spec (Byte.to_nat x) 128); [exact Hpre|lia].
    + intros n. rewrite Hdec. f_equal. f_equal. lia.
  - intros _. exists x, 0. simpl. repeat split; auto.
    intros n. f_equal. f_equal. lia.
Qed.

(** The loop body raises on undecodable bytes.  If [readline]
    returns bytes of which one is above 0x7f, the [UnicodeDecodeError]
    for the first such byte and its position leaves the loop body with
    nothing logged, no sleep and only [line] reset, and the loop takes no
    further line. *)
Theorem non_ascii_bytes_stop_the_loop cfg data now wr rest s :
  is_ascii data = false ->
  exists b pos,
    nth_error data pos = Some b /\
    128 <= Byte.to_nat b /\
    is_ascii (firstn pos data) = true /\
    iteration float cfg (mkInput (Line data) now wr) s =
      (Raise (UnicodeDecodeError b pos),
       mkSensor (id s) (ver s) (scale s) None (temperature s) (humidity s), []) /\
    main_loop float cfg (mkInput (Line data) now wr :: rest) s =
      (Raise (UnicodeDecodeError b pos),
       mkSensor (id s) (ver s) (scale s) None (temperature s) (humidity s), []).
Proof.
  intros H. destruct (decode_from_first_bad data H) as (b & pos & Hn & Hb & Hpre & Hdec).
  exists b, pos. repeat split; auto.
  - apply iteration_raised. unfold bind. simpl readline.
    rewrite (read_undecodable data (UnicodeDecodeError b pos)); [reflexivity|].
    apply (Hdec 0).
  - rewrite main_loop_cons.
    rewrite (iteration_raised cfg (mkInput (Line data) now wr) s
               (UnicodeDecodeError b pos)
               (mkSensor (id s) (ver s) (scale s) None (temperature s) (humidity s))
               []); [reflexivity|].
    unfold bind. simpl readline.
    rewrite (read_undecodable data (UnicodeDecodeError b pos)); [reflexivity|].
    apply (Hdec 0).
Qed.

(** The loop survives every sequence of inputs whose bytes decode: read
    failures, unknown tags, malformed payloads and failing database
    writes in any order and number never raise out of the loop. *)
Theorem main_loop_returns cfg inputs s :
  Forall readable inputs ->
  result_of (main_loop float cfg inputs s) = Ret tt.
Proof.
  intros H. revert s. induction H as [|inp rest Hinp _ IH]; intros s.
  - reflexivity.
  - rewrite main_loop_cons.
    pose proof (iteration_returns float cfg inp s Hinp) as Hr.
    destruct (iteration float cfg inp s) as [[r s1] t1].
    unfold result_of in Hr; simpl in Hr; subst r.
    apply IH.
Qed.

(** The loop calls [write_points] at most once per line read: a failed
    write is not retried and nothing is written twice. *)
Theorem at_most_one_write_per_line cfg inputs s :
  writes (trace_of (main_loop float cfg inputs s)) <= List.length inputs.
Proof.
  revert s. induction inputs as [|inp rest IH]; intros s; [simpl; lia|].
  rewrite main_loop_cons.
  pose proof (iteration_bounds cfg inp s) as (Hw & _ & _).
  destruct (iteration float cfg inp s) as [[[[]|ex] s1] t1];
    unfold trace_of in *; simpl in *.
  - rewrite writes_app. specialize (IH s1). lia.
  - lia.
Qed.

(** The loop sleeps at most one second per line read, whatever goes
    wrong with the line. *)
Theorem at_most_one_second_per_line cfg inputs s :
  slept (trace_of (main_loop float cfg inputs s)) <= List.length inputs.
Proof.
  revert s. induction inputs as [|inp rest IH]; intros s; [simpl; lia|].
  rewrite main_loop_cons.
  pose proof (iteration_bounds cfg inp s) as (_ & Hs & _).
  destruct (iteration float cfg inp s) as [[[[]|ex] s1] t1];
    unfold trace_of in *; simpl in *.
  - rewrite slept_app. specialize (IH s1). lia.
  - lia.
Qed.

(** Every point the loop hands to [write_points] names the configured
    table and location and has both its temperature and its humidity
    set: a point with a [None] field is never written. *)
Theorem written_points_are_complete cfg inputs s :
  Forall (fun p => measurement F p = influxdb_table cfg /\
                   tags_location F p = sensor_location cfg /\
                   fields_temperature F p <> None /\
                   fields_humidity F p <> None)
         (written (trace_of (main_loop float cfg inputs s))).
Proof.
  revert s. induction inputs as [|inp rest IH]; intros s; [constructor|].
  rewrite main_loop_cons.
  pose proof (iteration_bounds cfg inp s) as (_ & _ & Hp).
  assert (Hp' : Forall (fun p => measurement F p = influxdb_table cfg /\
                   tags_location F p = sensor_location cfg /\
                   fields_temperature F p <> None /\
                   fields_humidity F p <> None)
                  (written (trace_of (iteration float cfg inp s)))).
  { eapply Forall_impl; [|exact Hp]. simpl. tauto. }
  clear Hp.
  destruct (iteration float cfg inp s) as [[[[]|ex] s1] t1];
    unfold trace_of in *; simpl in *.
  - rewrite written_app. apply Forall_app. split; [exact Hp'|apply IH].
  - exact Hp'.
Qed.

End LoopFacts.

(** ** Further facts about [read] *)

Lemma to_nat_byte_of_ascii c : Byte.to_nat (byte_of_ascii c) = nat_of_ascii c.
Proof. apply Byte.to_of_nat. symmetry. apply byte_of_ascii_via_nat. Qed.

Lemma decode_from_encode n l : is_text l = true -> decode_from n (encode l) = inl l.
Proof.
  unfold encode, list_byte_of_string.
  revert n. induction l as [|c r IH]; intros n; simpl; [reflexivity|].
  intros H. apply andb_prop in H as [Hc Hr].
  rewrite to_nat_byte_of_ascii, Hc, (IH (S n) Hr), ascii_of_byte_of_ascii.
  reflexivity.
Qed.

Lemma is_text_app a b : is_text (a ++ b) = is_text a && is_text b.
Proof.
  induction a as [|c r IH]; simpl; [reflexivity|].
  rewrite IH, andb_assoc. reflexivity.
Qed.

Lemma all_space_is_text w : all_space w = true -> is_text w = true.
Proof.
  induction w as [|c r IH]; simpl; [reflexivity|].
  intros H. apply andb_prop in H as [Hc Hr]. rewrite (IH Hr), andb_true_r.
  unfold isspace in Hc. apply Nat.ltb_lt.
  apply orb_prop in Hc as [Hc|Hc]; apply andb_prop in Hc as [_ Hc];
    apply Nat.leb_le in Hc; lia.
Qed.

Lemma lstrip_space_app w l : all_space w = true -> lstrip (w ++ l) = lstrip l.
Proof.
  induction w as [|c r IH]; simpl; [reflexivity|].
  intros H. apply andb_prop in H as [Hc Hr]. rewrite Hc. exact (IH Hr).
Qed.

Lemma lstrip_all_space w : all_space w = true -> lstrip w = EmptyString.
Proof.
  induction w as [|c r IH]; simpl; [reflexivity|].
  intros H. apply andb_prop in H as [Hc Hr]. rewrite Hc. exact (IH Hr).
Qed.

Lemma rstrip_all_space w : all_space w = true -> rstrip w = EmptyString.
Proof.
  induction w as [|c r IH]; simpl; [reflexivity|].
  intros H. apply andb_prop in H as [Hc Hr]. rewrite (IH Hr), Hc. reflexivity.
Qed.

Lemma rstrip_app_space l w : all_space w = true -> rstrip (l ++ w) = rstrip l.
Proof.
  intros H. induction l as [|c r IH]; simpl.
  - apply rstrip_all_space, H.
  - rewrite IH. reflexivity.
Qed.

Lemma strip_app_space l w : all_space w = true -> strip (l ++ w) = strip l.
Proof.
  intros H. unfold strip. induction l as [|c r IH]; simpl.
  - rewrite (lstrip_all_space w H). reflexivity.
  - destruct (isspace c); [exact IH|].
    change (String c (r ++ w)) with (String c r ++ w)%string.
    apply rstrip_app_space, H.
Qed.

Lemma lstrip_lstrip x : lstrip (lstrip x) = lstrip x.
Proof.
  induction x as [|c r IH]; simpl; [reflexivity|].
  destruct (isspace c) eqn:E; [exact IH|]. simpl. rewrite E. reflexivity.
Qed.

Lemma rstrip_rstrip x : rstrip (rstrip x) = rstrip x.
Proof.
  induction x as [|c r IH]; simpl; [reflexivity|].
  destruct (rstrip r) as [|c' r'] eqn:E.
  - destruct (isspace c) eqn:Ec; simpl; [reflexivity|]. rewrite Ec. reflexivity.
  - simpl in *. rewrite IH. reflexivity.
Qed.

Lemma lstrip_rstrip_lstrip x : lstrip (rstrip (lstrip x)) = rstrip (lstrip x).
Proof.
  induction x as [|c r IH]; simpl; [reflexivity|].
  destruct (isspace c) eqn:E; [exact IH|]. simpl.
  destruct (rstrip r) as [|c' r']; [rewrite E|]; simpl; rewrite E; reflexivity.
Qed.

Lemma strip_strip x : strip (strip x) = strip x.
Proof. unfold strip. rewrite lstrip_rstrip_lstrip. apply rstrip_rstrip. Qed.

Section ReadFacts.

Context {F : Type}.

Implicit Types (s : Sensor F).

(** [read] on bytes that decode stores a line that [strip] leaves as it
    is, so no handler sees leading or trailing white space, and it logs
    nothing and touches no other attribute. *)
Theorem stored_line_is_stripped data_rd raw s :
  decode data_rd = inl raw ->
  exists l,
    read (Line data_rd) s =
      (Ret tt,
       mkSensor (id s) (ver s) (scale s) (Some l) (temperature s) (humidity s),
       []) /\
    strip l = l /\ lstrip l = l /\ rstrip l = l.
Proof.
  intros E. exists (strip raw). rewrite (read_decoded _ _ _ E).
  repeat split.
  - apply strip_strip.
  - apply lstrip_rstrip_lstrip.
  - apply rstrip_rstrip.
Qed.

(** White space around the text on the wire does not matter: for ASCII
    text [l] between any two runs of white space (a line feed, a
    carriage return and line feed, blanks), [read] stores [l] stripped. *)
Theorem read_strips_surrounding_space w1 l w2 s :
  is_text l = true -> all_space w1 = true -> all_space w2 = true ->
  read (Line (encode (w1 ++ l ++ w2))) s =
    (Ret tt,
     mkSensor (id s) (ver s) (scale s) (Some (strip l)) (temperature s) (humidity s),
     []).
Proof.
  intros Hl H1 H2.
  rewrite (read_decoded _ (w1 ++ l ++ w2)%string).
  - unfold strip at 1. rewrite (lstrip_space_app _ _ H1).
    fold (strip (l ++ w2)). rewrite (strip_app_space _ _ H2). reflexivity.
  - apply decode_from_encode.
    rewrite !is_text_app, Hl, (all_space_is_text _ H1), (all_space_is_text _ H2).
    reflexivity.
Qed.

End ReadFacts.

(** ** Facts about the configuration checks *)

Lemma validate_section_spec label options :
  (validate_section label options = Proceed <->
   forall val outcome, In (val, outcome) options ->
     exists value, outcome = inl value /\ value <> EmptyString) /\
  (forall code message,
     validate_section label options = Exit code message ->
     code = EINVAL /\
     exists val, In (val, inl EmptyString) options /\
                 message = (label ++ "->" ++ val ++ " can't be empty")%string) /\
  (forall ex,
     validate_section label options = Raised ex ->
     exists val, In (val, inr ex) options).
Proof.
  induction options as [|[val [value|ex0]] rest (IHp & IHe & IHr)]; simpl.
  - split; [split; [intros _ ? ? []|reflexivity]|split; discriminate].
  - destruct (String.eqb_spec value EmptyString) as [->|Hne].
    + split; [|split].
      * split; [discriminate|]. intros H.
        destruct (H val (inl EmptyString) (or_introl eq_refl)) as (v & [= <-] & Hv).
        now destruct Hv.
      * intros code message [= <- <-]. split; [reflexivity|]. exists val. auto.
      * discriminate.
    + split; [|split].
      * rewrite IHp. split.
        -- intros H v o [[= <- <-]|Hin]; [exists value; auto|exact (H v o Hin)].
        -- intros H v o Hin. exact (H v o (or_intror Hin)).
      * intros code message H. destruct (IHe _ _ H) as (Hc & v & Hin & Hm).
        split; [exact Hc|]. exists v. auto.
      * intros ex H. destruct (IHr _ H) as (v & Hin). exists v. auto.
  - split; [|split].
    + split; [discriminate|]. intros H.
      destruct (H val (inr ex0) (or_introl eq_refl)) as (v & [=] & _).
    + discriminate.
    + intros ex [= <-]. exists val. auto.
Qed.

Lemma has_option_spec cfg mh :
  has_option cfg mh = true <->
  exists options value, In (fst mh, options) cfg /\ In (snd mh, value) options.
Proof.
  unfold has_option. rewrite existsb_exists. split.
  - intros ([label options] & Hin & H). apply existsb_exists in H as ([val value] & Ho & H).
    simpl in H. apply andb_prop in H as [Hl Hv].
    apply String.eqb_eq in Hl, Hv. subst. exists options, value. auto.
  - intros (options & value & Hin & Ho). exists (fst mh, options). split; [exact Hin|].
    apply existsb_exists. exists (snd mh, value). split; [exact Ho|].
    simpl. rewrite !String.eqb_refl. reflexivity.
Qed.

Lemma check_missing_spec must_have cfg :
  (check_missing must_have cfg = Proceed <->
   forall mh, In mh must_have -> has_option cfg mh = true) /\
  (forall code message,
     check_missing must_have cfg = Exit code message ->
     code = EINVAL /\
     exists mh, In mh must_have /\ has_option cfg mh = false /\
       message = ("error: missing config " ++ fst mh ++ "->" ++ snd mh)%string).
Proof.
  induction must_have as [|mh rest [IHp IHe]]; simpl.
  - split; [split; [intros _ ? []|reflexivity]|discriminate].
  - destruct (has_option cfg mh) eqn:E.
    + split.
      * rewrite IHp. split; [intros H x [<-|Hx]; auto|intros H x Hx; auto].
      * intros code message H. destruct (IHe _ _ H) as (Hc & x & Hin & Hx & Hm).
        split; [exact Hc|]. exists x. auto.
    + split.
      * split; [discriminate|]. intros H. rewrite (H mh (or_introl eq_refl)) in E.
        discriminate.
      * intros code message [= <- <-]. split; [reflexivity|]. exists mh. auto.
Qed.

Lemma lookup_unique {A} key (v : A) l :
  NoDup (map fst l) -> In (key, v) l -> lookup key l = Some v.
Proof.
  induction l as [|[k x] rest IH]; simpl; [intros _ []|].
  intros Hnd [H|H].
  - injection H as -> ->. rewrite String.eqb_refl. reflexivity.
  - inversion Hnd as [|? ? Hk Hrest]. subst.
    destruct (String.eqb_spec k key) as [->|_]; [|exact (IH Hrest H)].
    exfalso. apply Hk. apply (in_map fst) in H. exact H.
Qed.

Lemma lookup_present {A} key (v : A) l :
  In (key, v) l -> exists v', lookup key l = Some v' /\ In (key, v') l.
Proof.
  induction l as [|[k x] rest IH]; simpl; [intros []|].
  destruct (String.eqb_spec k key) as [->|Hne].
  - intros _. exists x. auto.
  - intros [H|H]; [congruence|]. destruct (IH H) as (v' & Hl & Hin). eauto.
Qed.



Lemma startup_checks_proceed files_read cfg :
  startup_checks files_read cfg = Proceed ->
  files_read = [cfg_name] /\
  cfg_validate cfg = Proceed /\ cfg_check_missing_vals cfg = Proceed.
Proof.
  unfold startup_checks, cfg_read.
  destruct (list_eq_dec string_dec files_read [cfg_name]); [|discriminate].
  destruct (cfg_validate cfg); try discriminate. auto.
Qed.

Lemma cfg_validate_values cfg :
  cfg_validate cfg = Proceed ->
  forall label options val outcome,
    In (label, options) cfg -> In (val, outcome) options ->
    exists value, outcome = inl value /\ value <> EmptyString.
Proof.
  induction cfg as [|[l o] rest IH]; simpl; [intros _ ? ? ? ? []|].
  destruct (validate_section l o) eqn:E; try discriminate.
  intros H label options val outcome [Hin|Hin] Ho.
  - injection Hin as <- <-.
    exact (proj1 (proj1 (validate_section_spec l o)) E val outcome Ho).
  - exact (IH H label options val outcome Hin Ho).
Qed.

Lemma checked_item cfg label val :
  cfg_validate cfg = Proceed -> cfg_check_missing_vals cfg = Proceed ->
  NoDup (map fst cfg) ->
  In (label, val) cfg_must_have ->
  exists value, cfg_item cfg label val = inl value /\ value <> EmptyString.
Proof.
  intros Hv Hc Hnd Hin.
  destruct (check_missing_spec cfg_must_have cfg) as [Hp _].
  pose proof (proj1 Hp Hc _ Hin) as Hopt.
  apply has_option_spec in Hopt as (options & outcome & Hs & Ho). simpl in Hs, Ho.
  destruct (lookup_present _ _ _ Ho) as (outcome' & Hl & Ho').
  destruct (cfg_validate_values cfg Hv label options val outcome' Hs Ho')
    as (value & -> & Hne).
  exists value. unfold cfg_item.
  rewrite (lookup_unique _ _ _ Hnd Hs), Hl. split; [reflexivity|exact Hne].
Qed.

(** Once the three startup checks have let the program go on, the file
    read is the configuration file and every required setting can be
    looked up, [cfg[label][val]] raising no [KeyError] and giving a
    non-empty string.  (Section names are unique, as in any
    [ConfigParser].) *)
Theorem startup_checks_guarantee_settings files_read cfg :
  startup_checks files_read cfg = Proceed ->
  NoDup (map fst cfg) ->
  files_read = [cfg_name] /\
  forall label val, In (label, val) cfg_must_have ->
    exists value, cfg_item cfg label val = inl value /\ value <> EmptyString.
Proof.
  intros H Hnd. destruct (startup_checks_proceed _ _ H) as (Hf & Hv & Hc).
  split; [exact Hf|]. intros label val Hin.
  exact (checked_item cfg label val Hv Hc Hnd Hin).
Qed.

(** After the startup checks, logging cannot fail on a missing setting:
    [debug] always prints or appends its line, and [data] either does
    exactly what [debug] does with the same message or, exactly when
    [fork] is ["yes"] and [log_data] is ["no"], does nothing. *)
Theorem logging_after_startup files_read cfg now msg :
  startup_checks files_read cfg = Proceed ->
  NoDup (map fst cfg) ->
  (forall ex, Log.debug cfg now msg <> Failed ex) /\
  Log.debug cfg now msg <> Nothing /\
  (forall ex, Log.data cfg now msg <> Failed ex) /\
  (Log.data cfg now msg = Nothing \/
   Log.data cfg now msg = Log.debug cfg now msg) /\
  (Log.data cfg now msg = Nothing <->
   cfg_item cfg "sensor" "fork" = inl "yes" /\
   cfg_item cfg "sensor" "log_data" = inl "no").
Proof.
  intros H Hnd. destruct (startup_checks_proceed _ _ H) as (_ & Hv & Hc).
  destruct (checked_item cfg "sensor" "fork" Hv Hc Hnd) as (fork & Hfork & _);
    [simpl; tauto|].
  destruct (checked_item cfg "sensor" "log" Hv Hc Hnd) as (path & Hpath & _);
    [simpl; tauto|].
  destruct (checked_item cfg "sensor" "log_data" Hv Hc Hnd) as (ld & Hld & _);
    [simpl; tauto|].
  unfold Log.debug, Log.data. rewrite Hfork, Hpath, Hld.
  destruct (String.eqb_spec fork "yes") as [->|Hf].
  - destruct (String.eqb_spec ld "no") as [->|Hl].
    + repeat split; auto; discriminate.
    + repeat split; auto; try discriminate.
      intros [_ [= E]]. contradiction.
  - repeat split; auto; try discriminate.
    intros [[= E] _]. contradiction.
Qed.

(** ** The further facts on concrete lines *)

Lemma got_info_wrong_field_count_witness :
  got_info "boot:C:42" booted =
    (Ret false, booted,
     [Debug (GotInfoFailed "boot:C:42" (ValueError_unpack 4 3)); Sleep 1]).
Proof.
  apply (got_info_wrong_field_count "boot:C:42" booted). simpl. lia.
Defined.

Lemma got_data_wrong_field_count_witness :
  got_data decimal_float "7:21.5:48.0:9" booted =
    (Ret false, booted,
     [Debug (GotDataFailed "7:21.5:48.0:9" (ValueError_unpack 3 4)); Sleep 1]).
Proof.
  apply (got_data_wrong_field_count decimal_float "7:21.5:48.0:9" booted).
  simpl. lia.
Defined.

Lemma info_line_sets_identity_witness :
  process decimal_float (with_line "I:boot:F:42:1.0" booted) =
    (Ret false,
     mkSensor (Some "42") (Some "1.0") (Some "F") (Some "I:boot:F:42:1.0")
              (Some 20%Q) (Some 50%Q),
     [Debug (TempSensorBoot "F" "42" "1.0")]).
Proof.
  exact (info_line_sets_identity decimal_float "boot" "F" "42" "1.0"
           (with_line "I:boot:F:42:1.0" booted)
           eq_refl eq_refl eq_refl eq_refl eq_refl).
Defined.

Lemma error_line_logged_whole_witness :
  process decimal_float (with_line "E:i2c: no ack" booted) =
    (Ret false, with_line "E:i2c: no ack" booted,
     [Debug (SensorError (Some "7") "i2c: no ack")]).
Proof.
  exact (error_line_logged_whole decimal_float "i2c: no ack"
           (with_line "E:i2c: no ack" booted) eq_refl).
Defined.

Lemma process_true_only_for_data_witness :
  exists d i t h tv hv,
    line (with_line "D:7:21.5:48.0" booted) = Some ("D:" ++ d)%string /\
    split ":" d = [i; t; h] /\
    decimal_float t = Some tv /\ decimal_float h = Some hv /\
    temperature (state_of (process decimal_float (with_line "D:7:21.5:48.0" booted)))
      = Some tv /\
    humidity (state_of (process decimal_float (with_line "D:7:21.5:48.0" booted)))
      = Some hv.
Proof.
  exact (process_true_only_for_data decimal_float
           (with_line "D:7:21.5:48.0" booted) eq_refl).
Defined.

Lemma only_data_writes_measurement_witness :
  temperature (state_of (process decimal_float (with_line "I:boot:F:42:1.0" booted)))
    = Some 20%Q /\
  humidity (state_of (process decimal_float (with_line "I:boot:F:42:1.0" booted)))
    = Some 50%Q.
Proof.
  refine (only_data_writes_measurement decimal_float "I:boot:F:42:1.0"
            (with_line "I:boot:F:42:1.0" booted) eq_refl _).
  discriminate.
Defined.

Lemma mismatch_logged_iff_id_differs_witness :
  trace_of (got_data decimal_float "7:21.5:48.0" booted) = [Data "7" "21.5" "48.0"].
Proof.
  exact (proj1 (proj1 (mismatch_logged_iff_id_differs decimal_float
                         "7:21.5:48.0" "7" "21.5" "48.0" (43 # 2)%Q 48%Q booted
                         eq_refl eq_refl eq_refl)) eq_refl).
Defined.

Lemma info_then_data_same_id_witness :
  got_data decimal_float "42:21.5:48.0"
    (state_of (got_info "boot:F:42:1.0" booted)) =
    (Ret true,
     mkSensor (Some "42") (Some "1.0") (Some "F") None (Some (43 # 2)%Q) (Some 48%Q),
     [Data "42" "21.5" "48.0"]).
Proof.
  exact (info_then_data_same_id decimal_float "boot" "F" "42" "1.0" "21.5" "48.0"
           (43 # 2)%Q 48%Q booted
           eq_refl eq_refl eq_refl eq_refl eq_refl eq_refl eq_refl eq_refl).
Defined.

Lemma non_ascii_bytes_stop_the_loop_witness :
  exists b pos,
    nth_error [x44; x3a; xe9; x0a] pos = Some b /\
    128 <= Byte.to_nat b /\
    main_loop decimal_float house
      [mkInput (Line [x44; x3a; xe9; x0a]) "Mon" None;
       mkInput (wire "D:7:21.5:48.0") "Tue" None] booted =
      (Raise (UnicodeDecodeError b pos), booted, []).
Proof.
  destruct (non_ascii_bytes_stop_the_loop decimal_float house
              [x44; x3a; xe9; x0a] "Mon" None
              [mkInput (wire "D:7:21.5:48.0") "Tue" None] booted eq_refl)
    as (b & pos & Hn & Hb & _ & _ & Hm).
  exists b, pos. exact (conj Hn (conj Hb Hm)).
Defined.

Lemma main_loop_returns_witness :
  result_of
    (main_loop decimal_float house
       [mkInput (wire "I:boot:C:7:2.1") "Mon" None;
        mkInput (wire "D:7:21.5:48.0") "Mon" (Some (ExternalError "timeout"));
        mkInput (ReadError (ExternalError "device disconnected")) "Mon" None;
        mkInput (wire "garbage") "Mon" None;
        mkInput (wire "D:7:abc:48.0") "Mon" None;
        mkInput (wire "E:sensor offline") "Mon" None]
       init) = Ret tt.
Proof.
  apply (main_loop_returns decimal_float house).
  repeat constructor.
Defined.

Lemma stored_line_is_stripped_witness :
  exists l,
    read (wire "  D:7:21.5:48.0 ") booted =
      (Ret tt, mkSensor (Some "7") (Some "2.1") (Some "C") (Some l)
                        (Some 20%Q) (Some 50%Q), []) /\
    strip l = l /\ lstrip l = l /\ rstrip l = l.
Proof.
  destruct (stored_line_is_stripped (encode "  D:7:21.5:48.0 " ++ [x0a])
              ("  D:7:21.5:48.0 " ++ String "010" EmptyString)%string
              booted eq_refl) as (l & H).
  exists l. exact H.
Defined.

Lemma read_strips_surrounding_space_witness :
  read (Line (encode (" " ++ "D:7:21.5:48.0" ++
                      String "013" (String "010" EmptyString)))) booted =
    (Ret tt,
     mkSensor (Some "7") (Some "2.1") (Some "C") (Some "D:7:21.5:48.0")
              (Some 20%Q) (Some 50%Q), []).
Proof.
  exact (read_strips_surrounding_space " " "D:7:21.5:48.0"
           (String "013" (String "010" EmptyString)) booted
           eq_refl eq_refl eq_refl).
Defined.



Lemma sample_cfg_sections_unique : NoDup (map fst sample_cfg).
Proof.
  simpl. repeat constructor; simpl; intuition discriminate.
Qed.

Lemma startup_checks_guarantee_settings_witness :
  exists value, cfg_item sample_cfg "serial" "port_path" = inl value /\
                value <> EmptyString.
Proof.
  refine (proj2 (startup_checks_guarantee_settings ["sensor01.cfg"] sample_cfg
                   eq_refl sample_cfg_sections_unique) "serial" "port_path" _).
  simpl. tauto.
Defined.

Lemma logging_after_startup_witness :
  Log.data sample_cfg "Mon" "Id 7, Temperature 21.5f, Humidity 48.0%" = Nothing <->
  cfg_item sample_cfg "sensor" "fork" = inl "yes" /\
  cfg_item sample_cfg "sensor" "log_data" = inl "no".
Proof.
  destruct (logging_after_startup ["sensor01.cfg"] sample_cfg "Mon"
              "Id 7, Temperature 21.5f, Humidity 48.0%"
              eq_refl sample_cfg_sections_unique) as (_ & _ & _ & _ & H).
  exact H.
Defined.
